(** * The notify webhook (functions/notify.js): a shallow embedding

    The webhook receives the description of an email, authenticates the
    caller, scores the text against a keyword table, suppresses duplicates
    through a TTL-backed document store and forwards a message through a
    chat transport with one retry.

    Conventions of the embedding.
    - A JavaScript string is a [string]: a sequence of UTF-16 code units,
      restricted to the code units 0..255 (Latin-1); every [ascii] is one
      code unit, so [length], [slice] and [includes] count what the source
      counts. In this range lower-casing maps code unit to code unit;
      beyond it lower-casing can lengthen a string or depend on context,
      and module [Wide] embeds the dedupe key over wider strings to show
      what that changes.
    - A JavaScript number is an integer-valued double, carried as a [Z],
      or NaN, or an infinity; a [JNum] stands for a safe integer, which
      prints as its plain decimal numeral.
    - An object is a plain data object: it has no own toString or valueOf
      property, so converting it to a string gives "[object Object]" and
      does not throw.
    - A thrown value is an error object; the handler's catch block reads
      its message and stack.
    - The code's asynchronous functions are sequential ([await] at every
      call), so they are functions in a state-and-exception monad over a
      world that records every external effect in order. *)

From Stdlib Require Import ZArith List Bool Lia.
From Stdlib Require Import Strings.Ascii Strings.String.
From Stdlib Require Import Numbers.DecimalString Numbers.DecimalPos.
Import ListNotations.

Open Scope bool_scope.
Open Scope string_scope.
Open Scope Z_scope.

(** ** JavaScript strings *)

Module JsString.

(** Code unit of a character. *)
Definition code (c : ascii) : N := N_of_ascii c.

(** WhiteSpace and LineTerminator code points below 256: TAB, LF, VT, FF,
    CR, SP and NBSP. These are what [String.prototype.trim] and the
    numeric parsers strip. *)
Definition isWhiteSpace (c : ascii) : bool :=
  let n := code c in
  ((9 <=? n) && (n <=? 13) || (n =? 32) || (n =? 160))%N.

(** Upper-case letters below 256: A-Z, and U+00C0..U+00DE except the
    multiplication sign U+00D7. Each maps to the code point 32 above. *)
Definition isUpper (c : ascii) : bool :=
  let n := code c in
  ((65 <=? n) && (n <=? 90) ||
   (192 <=? n) && (n <=? 222) && negb (n =? 215))%N.

Definition lowerChar (c : ascii) : ascii :=
  if isUpper c then ascii_of_N (code c + 32) else c.

(** [String.prototype.toLowerCase] *)
Fixpoint toLowerCase (s : string) : string :=
  match s with
  | EmptyString => EmptyString
  | String c r => String (lowerChar c) (toLowerCase r)
  end.

Fixpoint trimStart (s : string) : string :=
  match s with
  | EmptyString => EmptyString
  | String c r => if isWhiteSpace c then trimStart r else s
  end.

Fixpoint trimEnd (s : string) : string :=
  match s with
  | EmptyString => EmptyString
  | String c r =>
      match trimEnd r with
      | EmptyString => if isWhiteSpace c then EmptyString else String c EmptyString
      | r' => String c r'
      end
  end.

(** [String.prototype.trim] *)
Definition trim (s : string) : string := trimEnd (trimStart s).

(** [s.slice(0, n)] for a non-negative [n]. *)
Fixpoint sliceTo (n : nat) (s : string) : string :=
  match n, s with
  | O, _ => EmptyString
  | _, EmptyString => EmptyString
  | S m, String c r => String c (sliceTo m r)
  end.

(** [text.includes(kw)]: [kw] occurs in [text] at some position. *)
Fixpoint includes (text kw : string) : bool :=
  String.prefix kw text ||
  match text with
  | EmptyString => false
  | String _ r => includes r kw
  end.

(** A string is truthy exactly when it is not empty. *)
Definition nonEmpty (s : string) : bool :=
  match s with EmptyString => false | _ => true end.

(** [parts.join(sep)] *)
Fixpoint join (sep : string) (parts : list string) : string :=
  match parts with
  | [] => EmptyString
  | [p] => p
  | p :: rest => p ++ sep ++ join sep rest
  end.

(** Every character is white space. *)
Fixpoint allWhiteSpace (s : string) : bool :=
  match s with
  | EmptyString => true
  | String c r => isWhiteSpace c && allWhiteSpace r
  end.

(** Decimal numeral of an integer, as [Number.prototype.toString] prints
    an integer-valued number of magnitude below 10^21. *)
Definition decimal (z : Z) : string :=
  NilZero.string_of_int (Z.to_int z).

End JsString.
Import JsString.

(** ** JavaScript values *)

(** The untyped values the webhook receives: the event, its payload, the
    headers and the configuration context. [JNum] holds an integer-valued
    number that prints as a plain decimal numeral; [JObj] is a plain data
    object, its properties listed in [Object.entries] order. *)
#[warnings="-register-all"]
Inductive JsValue : Type :=
| JUndefined
| JNull
| JBool (b : bool)
| JNum (z : Z)
| JNaN
| JStr (s : string)
| JArr (items : list JsValue)
| JObj (fields : list (string * JsValue)).

(** An object known to be one: the argument of a property access
    [payload.subject] that does not use optional chaining. *)
Definition JsObject : Type := list (string * JsValue).

Module Js.

(** ToBoolean *)
Definition truthy (v : JsValue) : bool :=
  match v with
  | JUndefined | JNull | JNaN => false
  | JBool b => b
  | JNum z => negb (z =? 0)
  | JStr s => nonEmpty s
  | JArr _ | JObj _ => true
  end.

(** [a || b] *)
Definition or (a b : JsValue) : JsValue := if truthy a then a else b.

(** [String(v)], which is also the conversion of a template literal. *)
Fixpoint toString (v : JsValue) : string :=
  match v with
  | JUndefined => "undefined"
  | JNull => "null"
  | JBool true => "true"
  | JBool false => "false"
  | JNum z => decimal z
  | JNaN => "NaN"
  | JStr s => s
  | JArr items =>
      join "," (map (fun x => match x with
                              | JUndefined | JNull => EmptyString
                              | _ => toString x
                              end) items)
  | JObj _ => "[object Object]"
  end.

(** [o.k] on an object: the first property named [k], else undefined. *)
Fixpoint prop (o : JsObject) (k : string) : JsValue :=
  match o with
  | [] => JUndefined
  | (k', v) :: rest => if String.eqb k' k then v else prop rest k
  end.

(** [v?.k] for the property names the webhook reads, none of which is
    defined on a primitive or on an array. *)
Definition get (v : JsValue) (k : string) : JsValue :=
  match v with
  | JObj fields => prop fields k
  | _ => JUndefined
  end.

(** [typeof v === 'object'] *)
Definition isObjectType (v : JsValue) : bool :=
  match v with
  | JNull | JArr _ | JObj _ => true
  | _ => false
  end.

Fixpoint indexed (i : nat) (items : list JsValue) : list (string * JsValue) :=
  match items with
  | [] => []
  | x :: rest => (decimal (Z.of_nat i), x) :: indexed (S i) rest
  end.

(** [Object.entries(v)] of an object or an array. *)
Definition entries (v : JsValue) : list (string * JsValue) :=
  match v with
  | JObj fields => fields
  | JArr items => indexed 0 items
  | _ => []
  end.

End Js.

(** ** Numbers returned by the numeric parser *)

Inductive JsNumber : Type :=
| NumNaN
| NumInf (negative : bool)
| NumFin (z : Z).

Module Num.

Definition isDigit (c : ascii) : bool :=
  ((48 <=? code c) && (code c <=? 57))%N.

Definition digitValue (c : ascii) : Z := Z.of_N (code c) - 48.

(** Value of the longest prefix of decimal digits, [None] when there is
    no digit at the front. [acc] is the value read so far. *)
Fixpoint digitsFrom (acc : Z) (seen : bool) (s : string) : option Z :=
  match s with
  | String c r =>
      if isDigit c then digitsFrom (10 * acc + digitValue c) true r
      else if seen then Some acc else None
  | EmptyString => if seen then Some acc else None
  end.

(** The double nearest to a non-negative integer (ties to even); an
    integer that rounds to 2^1024 or beyond becomes +Infinity. *)
Definition roundToDouble (n : Z) : JsNumber :=
  if n <? 2 ^ 53 then NumFin n
  else
    let e := Z.log2 n - 52 in
    let q := n / 2 ^ e in
    let r := n mod 2 ^ e in
    let half := 2 ^ (e - 1) in
    let q' := if (half <? r) || ((r =? half) && Z.odd q) then q + 1 else q in
    let v := q' * 2 ^ e in
    if 2 ^ 1024 <=? v then NumInf false else NumFin v.

Definition negate (x : JsNumber) : JsNumber :=
  match x with
  | NumNaN => NumNaN
  | NumInf b => NumInf (negb b)
  | NumFin z => NumFin (- z)
  end.

(** [Number.parseInt(v, 10)]: convert to a string, skip leading white
    space, read an optional sign and the longest run of decimal digits. *)
Definition parseInt10 (v : JsValue) : JsNumber :=
  let s := trimStart (Js.toString v) in
  let '(neg, body) :=
    match s with
    | String "-" r => (true, r)
    | String "+" r => (false, r)
    | _ => (false, s)
    end in
  match digitsFrom 0 false body with
  | None => NumNaN
  | Some n => if neg then negate (roundToDouble n) else roundToDouble n
  end.

(** [Number.isFinite] *)
Definition isFinite (x : JsNumber) : bool :=
  match x with NumFin _ => true | _ => false end.

End Num.

(** ** The world outside the handler *)

(** A thrown error, as far as the code inspects it: the [status] and
    [statusCode] properties, each a number or absent ([None]), and the
    message and stack that are logged. *)
Record JsError : Type := mkError {
  status : option Z;
  statusCode : option Z;
  message : string;
  stack : string
}.

Inductive Outcome (A : Type) : Type :=
| Ok (a : A)
| Throw (e : JsError).
Arguments Ok {A} a.
Arguments Throw {A} e.

(** A service of the document store. *)
Record Service : Type := mkService {
  friendlyName : string;
  sid : string
}.

(** Parameters of [client.messages.create]. *)
Record MessageParams : Type := mkParams {
  msgFrom : JsValue;
  msgTo : JsValue;
  msgBody : string
}.

(** Everything the handler does to the outside, in the order it happens. *)
Inductive Effect : Type :=
| ConsoleError (args : list string)
| ClientInit (accountSid authToken : JsValue)
| ServicesList (limit : Z)
| ServicesCreate (name : string)
| DocumentFetch (serviceSid uniqueName : string)
| DocumentCreate (serviceSid uniqueName createdAt : string) (ttl : Z)
| MessagesCreate (params : MessageParams)
| Sleep (ms : Z).

(** The external collaborators: the clock, the client constructor, the
    document store and the message transport. Each answer may depend on
    everything that happened before the call. *)
Record Env : Type := mkEnv {
  nowISO : list Effect -> string;
  twilioInit : list Effect -> JsValue -> JsValue -> Outcome unit;
  servicesList : list Effect -> Z -> Outcome (list Service);
  servicesCreate : list Effect -> string -> Outcome Service;
  documentFetch : list Effect -> string -> string -> Outcome unit;
  documentCreate : list Effect -> string -> string -> string -> Z -> Outcome unit;
  messagesCreate : list Effect -> MessageParams -> Outcome JsObject
}.

(** The module's state: the cached service handle ([null] at load time)
    and the effects performed so far. *)
Record World : Type := mkWorld {
  cachedSyncServiceSid : option string;
  trace : list Effect
}.

(** Computations that read and change the world and may throw. *)
Definition M (A : Type) : Type := World -> Outcome A * World.

Definition ret {A} (a : A) : M A := fun w => (Ok a, w).

Definition throw {A} (e : JsError) : M A := fun w => (Throw e, w).

Definition bind {A B} (c : M A) (k : A -> M B) : M B :=
  fun w =>
    match c w with
    | (Ok a, w') => k a w'
    | (Throw e, w') => (Throw e, w')
    end.

(** [try { c } catch (error) { h error }] *)
Definition tryCatch {A} (c : M A) (h : JsError -> M A) : M A :=
  fun w =>
    match c w with
    | (Ok a, w') => (Ok a, w')
    | (Throw e, w') => h e w'
    end.

Declare Scope js_scope.
Delimit Scope js_scope with js.
Notation "x <- c ;; k" := (bind c (fun x => k))
  (at level 61, c at next level, right associativity) : js_scope.
Notation "c ;; k" := (bind c (fun _ => k))
  (at level 61, right associativity) : js_scope.
Open Scope js_scope.

Definition record (e : Effect) (w : World) : World :=
  mkWorld (cachedSyncServiceSid w) (trace w ++ [e]).

(** An external call: the environment answers from the history, and the
    call is appended to the trace. *)
Definition perform {A} (e : Effect) (answer : list Effect -> Outcome A) : M A :=
  fun w => (answer (trace w), record e w).

Definition consoleError (args : list string) : M unit :=
  perform (ConsoleError args) (fun _ => Ok tt).

Definition getCached : M (option string) :=
  fun w => (Ok (cachedSyncServiceSid w), w).

Definition setCached (s : string) : M unit :=
  fun w => (Ok tt, mkWorld (Some s) (trace w)).

(** The world a freshly loaded module starts in. *)
Definition initialWorld : World := mkWorld None [].

(** ** The webhook *)

Definition KEYWORDS : list string :=
  [ "interview"; "shortlisted"; "schedule"; "assessment"; "recruiter";
    "hr"; "selection process"; "invite"; "naukri"; "naukri.com"; "call";
    "zoom"; "google meet"; "date"; "time" ].

Definition DEFAULT_SOURCE : string := "Gmail/Naukri".
Definition DEFAULT_THRESHOLD : Z := 3.
Definition DEDUPE_TTL_SECONDS : Z := 24 * 60 * 60.
Definition SYNC_SERVICE_NAME : string := "whatsapp-naukri-zapier-twilio".
Definition SEND_RETRY_DELAY_MS : Z := 800.

Definition cleanString (value : JsValue) : string :=
  match value with
  | JNull | JUndefined => ""
  | _ => trim (Js.toString value)
  end.

Definition clip (value : JsValue) (maxLength : nat) : string :=
  let text := cleanString value in
  if negb (nonEmpty text) then ""
  else if Nat.ltb maxLength (String.length text) then sliceTo maxLength text
  else text.

(** The loop of [getHeader] over [Object.entries(headers)]. *)
Fixpoint findHeader (wanted : string) (es : list (string * JsValue)) : string :=
  match es with
  | [] => ""
  | (key, rawValue) :: rest =>
      if negb (String.eqb (toLowerCase key) wanted) then findHeader wanted rest
      else
        match rawValue with
        | JArr items => cleanString (hd JUndefined items)
        | _ => cleanString rawValue
        end
  end.

Definition getHeader (headers : JsValue) (headerName : string) : string :=
  if negb (Js.truthy headers) || negb (Js.isObjectType headers) then ""
  else findHeader (toLowerCase headerName) (Js.entries headers).

(** The headers the authenticator reads:
    [event?.request?.headers || event?.headers]. *)
Definition requestHeaders (event : JsValue) : JsValue :=
  Js.or (Js.get (Js.get event "request") "headers") (Js.get event "headers").

Definition isAuthorizedRequest (event expectedSecret : JsValue) : M bool :=
  let secret := cleanString expectedSecret in
  if negb (nonEmpty secret) then
    consoleError ["WEBHOOK_SECRET is not configured."] ;;
    ret false
  else
    let provided := getHeader (requestHeaders event) "x-webhook-secret" in
    ret (String.eqb provided secret).

(** [(event?.payload && typeof event.payload === 'object')
      ? event.payload : event] *)
Definition selectPayload (event : JsValue) : JsValue :=
  if Js.truthy (Js.get event "payload") && Js.isObjectType (Js.get event "payload")
  then Js.get event "payload" else event.

Definition parsePayload (event : JsValue) : JsObject :=
  let payload := selectPayload event in
  [ ("email_id", JStr (cleanString
       (Js.or (Js.or (Js.get payload "email_id") (Js.get payload "emailId"))
              (Js.get payload "message_id"))));
    ("subject", JStr (cleanString (Js.get payload "subject")));
    ("from", JStr (cleanString (Js.get payload "from")));
    ("date", JStr (cleanString (Js.get payload "date")));
    ("snippet", JStr (cleanString (Js.get payload "snippet")));
    ("body", JStr (cleanString (Js.get payload "body")));
    ("source", JStr (let s := cleanString (Js.get payload "source") in
                     if nonEmpty s then s else DEFAULT_SOURCE)) ].

Definition getDetectorThreshold (raw : JsValue) : Z :=
  match Num.parseInt10 raw with
  | NumFin parsed => if parsed <=? 0 then DEFAULT_THRESHOLD else parsed
  | _ => DEFAULT_THRESHOLD
  end.

Record ScoreResult : Type := mkScore {
  score : Z;
  matched : list string
}.

(** One round of the loop over the keyword table. *)
Definition scoreStep (text : string) (acc : ScoreResult) (keyword : string)
  : ScoreResult :=
  if includes text keyword
  then mkScore (score acc + 1) (matched acc ++ [keyword])
  else acc.

(** The text that is searched: subject, snippet and body joined by
    spaces, in lower case. *)
Definition scoredText (payload : JsObject) : string :=
  toLowerCase (Js.toString (Js.prop payload "subject") ++ " " ++
               Js.toString (Js.prop payload "snippet") ++ " " ++
               Js.toString (Js.prop payload "body")).

Definition scoreOver (table : list string) (payload : JsObject) : ScoreResult :=
  fold_left (scoreStep (scoredText payload)) table (mkScore 0 []).

Definition scorePayload (payload : JsObject) : ScoreResult :=
  scoreOver KEYWORDS payload.

(** [error?.status || error?.statusCode] *)
Definition reportedStatus (error : JsError) : option Z :=
  match status error with
  | Some s => if s =? 0 then statusCode error else Some s
  | None => statusCode error
  end.

Definition isTransientError (error : JsError) : bool :=
  match reportedStatus error with
  | Some code => (code =? 429) || ((500 <=? code) && (code <? 600))
  | None => false
  end.

Record ConfigState : Type := mkConfig {
  ok : bool;
  missing : list string
}.

Definition requiredVars : list string :=
  [ "TWILIO_ACCOUNT_SID"; "TWILIO_AUTH_TOKEN";
    "TWILIO_WHATSAPP_FROM"; "TWILIO_WHATSAPP_TO" ].

Definition assertSendConfig (context : JsObject) : ConfigState :=
  let missing :=
    filter (fun key => negb (nonEmpty (cleanString (Js.prop context key))))
           requiredVars in
  mkConfig (Nat.eqb (List.length missing) 0) missing.

(** The response handed to the callback. [body] is the object that the
    source serialises with [JSON.stringify]. *)
Record Response : Type := mkResponse {
  respStatus : Z;
  respHeaders : list (string * string);
  respBody : JsObject
}.

Definition createJsonResponse (statusCode : Z) (bodyObj : JsObject) : Response :=
  mkResponse statusCode
    [ ("Content-Type", "application/json"); ("Cache-Control", "no-store") ]
    bodyObj.

Section Handler.

(** [crypto.createHash('sha256').update(value).digest('hex')], a function
    of the platform's library. *)
Variable sha256Hex : string -> string.

(** The first line of the outbound message: the words "Naukri Invite"
    followed by a check-mark emoji, a character above code unit 255. *)
Variable inviteMarker : string.

Variable env : Env.

Definition hashText (value : string) : string := sha256Hex value.

Definition buildDedupeKey (payload : JsObject) : string :=
  if Js.truthy (Js.prop payload "email_id") then
    "email:" ++ Js.toString (Js.prop payload "email_id")
  else
    let excerptForHash :=
      clip (Js.or (Js.prop payload "snippet") (Js.prop payload "body")) 200 in
    let base :=
      join "|" (map (fun item => toLowerCase (cleanString item))
                    [ Js.prop payload "from"; Js.prop payload "subject";
                      Js.prop payload "date"; JStr excerptForHash ]) in
    "hash:" ++ hashText base.

(** [`${label}${v || fallback}`] *)
Definition labelled (label : string) (v : JsValue) (fallback : string) : string :=
  label ++ Js.toString (Js.or v (JStr fallback)).

Definition buildWhatsAppBody (payload : JsObject) : string :=
  let excerpt :=
    clip (Js.or (Js.prop payload "snippet") (Js.prop payload "body")) 300 in
  join (String (ascii_of_N 10) "")
    [ inviteMarker;
      labelled "Subject: " (Js.prop payload "subject") "(no subject)";
      labelled "From: " (Js.prop payload "from") "(unknown sender)";
      labelled "Date: " (Js.prop payload "date") "(unknown date)";
      labelled "Excerpt: " (JStr excerpt) "(no excerpt)" ].

(** [sleep(ms)] *)
Definition sleep (ms : Z) : M unit := perform (Sleep ms) (fun _ => Ok tt).

(** [client.messages.create(params)] *)
Definition createMessage (params : MessageParams) : M JsObject :=
  perform (MessagesCreate params) (fun h => messagesCreate env h params).

Definition sendWithRetry (params : MessageParams) : M JsObject :=
  tryCatch (createMessage params)
    (fun error =>
       if negb (isTransientError error) then throw error
       else
         sleep SEND_RETRY_DELAY_MS ;;
         createMessage params).

Definition cachedIsSet (cached : option string) : bool :=
  match cached with
  | Some s => nonEmpty s
  | None => false
  end.

Definition resolveSyncServiceSid (context : JsObject) : M string :=
  let provided := cleanString (Js.prop context "TWILIO_SYNC_SERVICE_SID") in
  if nonEmpty provided then ret provided
  else
    cached <- getCached ;;
    if cachedIsSet cached then ret (match cached with Some s => s | None => "" end)
    else
      services <- perform (ServicesList 20) (fun h => servicesList env h 20) ;;
      match find (fun svc => String.eqb (friendlyName svc) SYNC_SERVICE_NAME)
                 services with
      | Some found =>
          setCached (sid found) ;;
          ret (sid found)
      | None =>
          match services with
          | first :: _ =>
              setCached (sid first) ;;
              ret (sid first)
          | [] =>
              created <- perform (ServicesCreate SYNC_SERVICE_NAME)
                           (fun h => servicesCreate env h SYNC_SERVICE_NAME) ;;
              setCached (sid created) ;;
              ret (sid created)
          end
      end.

(** [documents(dedupeKey).fetch()] *)
Definition fetchDocument (serviceSid dedupeKey : string) : M unit :=
  perform (DocumentFetch serviceSid dedupeKey)
          (fun h => documentFetch env h serviceSid dedupeKey).

(** [documents.create({ uniqueName, data: { createdAt }, ttl })] *)
Definition createDocument (serviceSid dedupeKey : string) (ttl : Z) : M unit :=
  fun w =>
    let createdAt := nowISO env (trace w) in
    perform (DocumentCreate serviceSid dedupeKey createdAt ttl)
            (fun h => documentCreate env h serviceSid dedupeKey createdAt ttl) w.

(** [Number(error?.status) === n] *)
Definition statusIs (error : JsError) (n : Z) : bool :=
  match status error with
  | Some s => s =? n
  | None => false
  end.

Definition markAsProcessedIfNew (context : JsObject) (dedupeKey : string) : M bool :=
  serviceSid <- resolveSyncServiceSid context ;;
  found <- tryCatch (fetchDocument serviceSid dedupeKey ;; ret true)
             (fun error =>
                if negb (statusIs error 404) then throw error else ret false) ;;
  if found then ret false
  else
    tryCatch (createDocument serviceSid dedupeKey DEDUPE_TTL_SECONDS ;; ret true)
      (fun error => if statusIs error 409 then ret false else throw error).

(** [twilio(accountSid, authToken)] *)
Definition twilio (accountSid authToken : JsValue) : M unit :=
  perform (ClientInit accountSid authToken)
          (fun h => twilioInit env h accountSid authToken).

Definition handler (context : JsObject) (event : JsValue) : M Response :=
  tryCatch
    (authorized <- isAuthorizedRequest event (Js.prop context "WEBHOOK_SECRET") ;;
     if negb authorized then
       ret (createJsonResponse 401
              [("ok", JBool false); ("error", JStr "unauthorized")])
     else
       let payload := parsePayload event in
       let threshold := getDetectorThreshold (Js.prop context "DETECTOR_THRESHOLD") in
       let score := score (scorePayload payload) in
       if score <? threshold then
         ret (createJsonResponse 200
                [("ok", JBool true); ("action", JStr "ignored"); ("score", JNum score)])
       else
         let configState := assertSendConfig context in
         if negb (ok configState) then
           consoleError ["Missing required env vars:"; join ", " (missing configState)] ;;
           ret (createJsonResponse 500
                  [("ok", JBool false); ("error", JStr "missing_env")])
         else
           twilio (Js.prop context "TWILIO_ACCOUNT_SID")
                  (Js.prop context "TWILIO_AUTH_TOKEN") ;;
           let dedupeKey := buildDedupeKey payload in
           isNew <- markAsProcessedIfNew context dedupeKey ;;
           if negb isNew then
             ret (createJsonResponse 200
                    [("ok", JBool true); ("action", JStr "deduped")])
           else
             message <- sendWithRetry
                          (mkParams (Js.prop context "TWILIO_WHATSAPP_FROM")
                                    (Js.prop context "TWILIO_WHATSAPP_TO")
                                    (buildWhatsAppBody payload)) ;;
             ret (createJsonResponse 200
                    [("ok", JBool true); ("action", JStr "sent");
                     ("sid", Js.prop message "sid")]))
    (fun error =>
       consoleError ["notify handler error:"; message error; stack error] ;;
       ret (createJsonResponse 500
              [("ok", JBool false); ("error", JStr "internal_error")])).

End Handler.

(** ** The dedupe key over strings beyond Latin-1 *)

Module Wide.

(** A string as the list of its UTF-16 code units. The module covers the
    code units below 256 together with U+0130 (capital I with dot above)
    and U+0307 (combining dot above). *)
Definition text : Type := list N.

(** The code units of a Latin-1 string. *)
Fixpoint units (s : string) : text :=
  match s with
  | EmptyString => []
  | String c r => N_of_ascii c :: units r
  end.

(** WhiteSpace and LineTerminator code points. *)
Definition isWhiteSpace (u : N) : bool :=
  ((9 <=? u) && (u <=? 13) || (u =? 32) || (u =? 160) || (u =? 5760) ||
   (8192 <=? u) && (u <=? 8202) || (u =? 8232) || (u =? 8233) ||
   (u =? 8239) || (u =? 8287) || (u =? 12288) || (u =? 65279))%N.

(** Lower case of one code unit: the letters A-Z and U+00C0..U+00DE
    (except U+00D7) move 32 up, U+0130 becomes the two code units of
    "i" and the combining dot above, every other code unit stays. *)
Definition lowerUnit (u : N) : list N :=
  if ((65 <=? u) && (u <=? 90) ||
      (192 <=? u) && (u <=? 222) && negb (u =? 215))%N then [(u + 32)%N]
  else if (u =? 304)%N then [105%N; 775%N]
  else [u].

(** [String.prototype.toLowerCase] *)
Definition toLowerCase (t : text) : text := flat_map lowerUnit t.

Fixpoint trimStart (t : text) : text :=
  match t with
  | [] => []
  | u :: r => if isWhiteSpace u then trimStart r else t
  end.

Fixpoint trimEnd (t : text) : text :=
  match t with
  | [] => []
  | u :: r =>
      match trimEnd r with
      | [] => if isWhiteSpace u then [] else [u]
      | r' => u :: r'
      end
  end.

(** [String.prototype.trim] *)
Definition trim (t : text) : text := trimEnd (trimStart t).

(** [parts.join(sep)] *)
Fixpoint join (sep : text) (parts : list text) : text :=
  match parts with
  | [] => []
  | [p] => p
  | p :: rest => (p ++ sep ++ join sep rest)%list
  end.

(** A field of the payload: absent, or a string. *)
Inductive Value : Type :=
| Undefined
| Str (t : text).

Definition truthy (v : Value) : bool :=
  match v with
  | Undefined => false
  | Str [] => false
  | Str _ => true
  end.

(** [a || b] *)
Definition or (a b : Value) : Value := if truthy a then a else b.

(** [String(v)] *)
Definition toString (v : Value) : text :=
  match v with
  | Undefined => units "undefined"
  | Str t => t
  end.

Definition cleanString (value : Value) : text :=
  match value with
  | Undefined => []
  | Str t => trim t
  end.

Definition clip (value : Value) (maxLength : nat) : text :=
  let text := cleanString value in
  match text with
  | [] => []
  | _ => if Nat.ltb maxLength (List.length text) then firstn maxLength text else text
  end.

(** The properties of a payload that [buildDedupeKey] reads. *)
Record Payload : Type := mkPayload {
  email_id : Value;
  from : Value;
  subject : Value;
  date : Value;
  snippet : Value;
  body : Value
}.

(** The text that is hashed: [base] in [buildDedupeKey]. *)
Definition dedupeBase (payload : Payload) : text :=
  let excerptForHash := clip (or (snippet payload) (body payload)) 200 in
  join (units "|")
       (map (fun item => toLowerCase (cleanString item))
            [ from payload; subject payload; date payload; Str excerptForHash ]).

Definition buildDedupeKey (hashText : text -> text) (payload : Payload) : text :=
  if truthy (email_id payload) then
    (units "email:" ++ toString (email_id payload))%list
  else
    (units "hash:" ++ hashText (dedupeBase payload))%list.

End Wide.

(** ** Vocabulary of the specification *)

(** [xs] is obtained from [ys] by deleting elements, keeping the order. *)
Inductive Subsequence {A : Type} : list A -> list A -> Prop :=
| SubNil : Subsequence [] []
| SubSkip x xs ys : Subsequence xs ys -> Subsequence xs (x :: ys)
| SubKeep x xs ys : Subsequence xs ys -> Subsequence (x :: xs) (x :: ys).

(** Two field values differ at most in the letter case of their text. *)
Definition sameUpToCase (v w : JsValue) : Prop :=
  match v, w with
  | JStr s, JStr t => toLowerCase s = toLowerCase t
  | _, _ => v = w
  end.

(** The fields that [buildDedupeKey] reads. *)
Definition keyFields : list string :=
  [ "email_id"; "from"; "subject"; "date"; "snippet"; "body" ].

(** Value of a decimal numeral read from the left with [acc] already read. *)
Fixpoint uintValue (acc : Z) (d : Decimal.uint) : Z :=
  match d with
  | Decimal.Nil => acc
  | Decimal.D0 l => uintValue (10 * acc + 0) l
  | Decimal.D1 l => uintValue (10 * acc + 1) l
  | Decimal.D2 l => uintValue (10 * acc + 2) l
  | Decimal.D3 l => uintValue (10 * acc + 3) l
  | Decimal.D4 l => uintValue (10 * acc + 4) l
  | Decimal.D5 l => uintValue (10 * acc + 5) l
  | Decimal.D6 l => uintValue (10 * acc + 6) l
  | Decimal.D7 l => uintValue (10 * acc + 7) l
  | Decimal.D8 l => uintValue (10 * acc + 8) l
  | Decimal.D9 l => uintValue (10 * acc + 9) l
  end.

(** A stand-in for the digest when a key is evaluated on an example:
    it returns the text it is given. *)
Definition plainDigest : string -> string := fun value => value.

(** The value a header entry stands for: the first element of an array,
    else the value itself. *)
Definition headerScalar (rawValue : JsValue) : JsValue :=
  match rawValue with
  | JArr items => hd JUndefined items
  | _ => rawValue
  end.

(** The lower-case name of the secret header. *)
Definition secretHeader : string := "x-webhook-secret".

Definition isSend (e : Effect) : bool :=
  match e with
  | MessagesCreate _ => true
  | _ => false
  end.

(** Number of times the transport was invoked in a trace. *)
Definition sends (t : list Effect) : nat := List.length (filter isSend t).

(** A computation invokes the transport at most [n] times. *)
Definition sendsAtMost {A} (n : nat) (c : M A) : Prop :=
  forall w, (sends (trace (snd (c w))) <= sends (trace w) + n)%nat.

(** An environment for examples: the store has no service yet and
    answers every fetch with [fetch] and every create with [create]; the
    transport answers from the history with [send]. *)
Definition scriptedEnv (fetch create : Outcome unit)
           (send : list Effect -> Outcome JsObject) : Env :=
  mkEnv (fun _ => "2026-01-01T10:00:00.000Z")
        (fun _ _ _ => Ok tt)
        (fun _ _ => Ok [])
        (fun _ name => Ok (mkService name "IS0001"))
        (fun _ _ _ => fetch)
        (fun _ _ _ _ _ => create)
        (fun h _ => send h).

Definition httpError (code : Z) : JsError :=
  mkError (Some code) None "request failed" "Error: request failed".

(** A transport that fails once with 503 and then accepts the message. *)
Definition failsOnce (h : list Effect) : Outcome JsObject :=
  match sends h with
  | O => Throw (httpError 503)
  | _ => Ok [("sid", JStr "SM0001")]
  end.

Definition sampleParams : MessageParams :=
  mkParams (JStr "whatsapp:+14155238886") (JStr "whatsapp:+15550001111") "Naukri Invite".

(** An invite sent by an authorized caller. *)
Definition inviteEvent : JsValue :=
  JObj [ ("request", JObj [ ("headers", JObj [ ("x-webhook-secret", JStr "s3cret") ]) ]);
         ("email_id", JStr "18f9f4f2");
         ("subject", JStr "Interview invite from recruiter on Naukri");
         ("snippet", JStr "Please schedule a zoom call");
         ("from", JStr "noreply@naukri.com");
         ("date", JStr "2026-01-01") ].

(** A mail without any keyword, sent by an authorized caller. *)
Definition newsletterEvent : JsValue :=
  JObj [ ("headers", JObj [ ("X-Webhook-Secret", JStr "s3cret") ]);
         ("subject", JStr "Weekly newsletter") ].

(** A context with the secret and every delivery credential. *)
Definition fullContext : JsObject :=
  [ ("WEBHOOK_SECRET", JStr "s3cret");
    ("TWILIO_ACCOUNT_SID", JStr "AC0001");
    ("TWILIO_AUTH_TOKEN", JStr "token");
    ("TWILIO_WHATSAPP_FROM", JStr "whatsapp:+14155238886");
    ("TWILIO_WHATSAPP_TO", JStr "whatsapp:+15550001111");
    ("TWILIO_SYNC_SERVICE_SID", JStr "IS0001") ].

(** The same context without the delivery credentials. *)
Definition bareContext : JsObject :=
  [ ("WEBHOOK_SECRET", JStr "s3cret");
    ("TWILIO_SYNC_SERVICE_SID", JStr "IS0001") ].

(** An environment whose store already holds every key. *)
Definition duplicateEnv : Env :=
  scriptedEnv (Ok tt) (Throw (httpError 409)) (fun _ => Ok [("sid", JStr "SM0001")]).

(** The payload of the detector's unit test. *)
Definition invitePayload : JsObject :=
  [ ("subject", JStr "Interview invite from recruiter on Naukri");
    ("snippet", JStr "Please schedule a zoom call and selection process discussion");
    ("body", JStr "HR shared date and time for assessment") ].

(** First and last code unit of a string. *)
Definition firstChar (s : string) : option ascii :=
  match s with
  | EmptyString => None
  | String c _ => Some c
  end.

Fixpoint lastChar (s : string) : option ascii :=
  match s with
  | EmptyString => None
  | String c EmptyString => Some c
  | String _ r => lastChar r
  end.

(** A string has no white space at either end. *)
Definition noOuterSpace (s : string) : Prop :=
  (forall c, firstChar s = Some c -> isWhiteSpace c = false) /\
  (forall c, lastChar s = Some c -> isWhiteSpace c = false).

(** The names of the properties of a normalized event, in order. *)
Definition eventFields : list string :=
  [ "email_id"; "subject"; "from"; "date"; "snippet"; "body"; "source" ].

(** A value is a string. *)
Definition isString (v : JsValue) : Prop :=
  match v with
  | JStr _ => True
  | _ => False
  end.

(** An environment whose store lists the given services. *)
Definition listingEnv (services : list Service) : Env :=
  mkEnv (fun _ => "2026-01-01T10:00:00.000Z")
        (fun _ _ _ => Ok tt)
        (fun _ _ => Ok services)
        (fun _ name => Ok (mkService name "IS0001"))
        (fun _ _ _ => Throw (httpError 404))
        (fun _ _ _ _ _ => Ok tt)
        (fun _ _ => Ok [("sid", JStr "SM0001")]).

(** A context that holds the secret only. *)
Definition secretContext : JsObject := [ ("WEBHOOK_SECRET", JStr "s3cret") ].

(** The six answers of the webhook. *)
Inductive Documented : Response -> Prop :=
| DocUnauthorized :
    Documented (createJsonResponse 401
                  [("ok", JBool false); ("error", JStr "unauthorized")])
| DocIgnored points :
    0 <= points <= 15 ->
    Documented (createJsonResponse 200
                  [("ok", JBool true); ("action", JStr "ignored"); ("score", JNum points)])
| DocDeduped :
    Documented (createJsonResponse 200
                  [("ok", JBool true); ("action", JStr "deduped")])
| DocSent messageSid :
    Documented (createJsonResponse 200
                  [("ok", JBool true); ("action", JStr "sent"); ("sid", messageSid)])
| DocMissingEnv :
    Documented (createJsonResponse 500
                  [("ok", JBool false); ("error", JStr "missing_env")])
| DocInternalError :
    Documented (createJsonResponse 500
                  [("ok", JBool false); ("error", JStr "internal_error")]).

(** The answer of the handler's catch block and the world it leaves. *)
Definition caught (error : JsError) (w : World) : Outcome Response * World :=
  (Ok (createJsonResponse 500 [("ok", JBool false); ("error", JStr "internal_error")]),
   record (ConsoleError ["notify handler error:"; message error; stack error]) w).

(** [s || fallback] on strings. *)
Definition orElse (s fallback : string) : string :=
  if nonEmpty s then s else fallback.

(** The line feed that joins the lines of the message. *)
Definition lineFeed : string := String (ascii_of_N 10) "".



(** * Properties *)

(** ** Invite detector *)

Lemma filter_Subsequence {A} (f : A -> bool) (l : list A) :
  Subsequence (filter f l) l.
Proof.
  induction l as [|x l IH]; simpl.
  - constructor.
  - destruct (f x); constructor; exact IH.
Qed.

(** The loop invariant of [scorePayload]: after any part of the table the
    counter has grown by the number of keywords pushed. *)
Lemma scoreStep_fold (text : string) (table : list string) (acc : ScoreResult) :
  fold_left (scoreStep text) table acc =
  mkScore (score acc + Z.of_nat (List.length (filter (includes text) table)))
          (matched acc ++ filter (includes text) table).
Proof.
  revert acc.
  induction table as [|kw table IH]; intros acc; simpl.
  - rewrite Z.add_0_r, app_nil_r. destruct acc; reflexivity.
  - rewrite IH. unfold scoreStep.
    destruct (includes text kw); simpl.
    + rewrite <- app_assoc. simpl. f_equal. lia.
    + reflexivity.
Qed.

Lemma scoreOver_filter (table : list string) (payload : JsObject) :
  scoreOver table payload =
  mkScore (Z.of_nat (List.length (filter (includes (scoredText payload)) table)))
          (filter (includes (scoredText payload)) table).
Proof.
  unfold scoreOver. rewrite scoreStep_fold. reflexivity.
Qed.

Lemma KEYWORDS_NoDup : NoDup KEYWORDS.
Proof.
  unfold KEYWORDS.
  repeat (constructor; [simpl; intuition discriminate|]).
  constructor.
Qed.

(** C8: on the payload of the detector's test the score is at least 8 and
    the matched list contains "interview", "zoom" and "assessment". *)
Theorem scorePayload_invite_example :
  8 <= score (scorePayload invitePayload) /\
  In "interview" (matched (scorePayload invitePayload)) /\
  In "zoom" (matched (scorePayload invitePayload)) /\
  In "assessment" (matched (scorePayload invitePayload)).
Proof.
  assert (E : scorePayload invitePayload =
              mkScore 12 [ "interview"; "schedule"; "assessment"; "recruiter";
                           "hr"; "selection process"; "invite"; "naukri";
                           "call"; "zoom"; "date"; "time" ])
    by (vm_compute; reflexivity).
  rewrite E. simpl. intuition lia.
Qed.

(** C9: for every payload the matched list is a duplicate-free
    subsequence of the keyword table, the score is its length, and the
    score never exceeds 15, the size of the table. *)
Theorem scorePayload_matched_invariant (payload : JsObject) :
  Subsequence (matched (scorePayload payload)) KEYWORDS /\
  NoDup (matched (scorePayload payload)) /\
  score (scorePayload payload) =
    Z.of_nat (List.length (matched (scorePayload payload))) /\
  0 <= score (scorePayload payload) <= 15 /\
  List.length KEYWORDS = 15%nat.
Proof.
  unfold scorePayload. rewrite scoreOver_filter. cbn [score matched].
  set (f := includes (scoredText payload)).
  repeat split.
  - apply filter_Subsequence.
  - apply NoDup_filter, KEYWORDS_NoDup.
  - lia.
  - pose proof (filter_length_le f KEYWORDS) as H.
    change (List.length KEYWORDS) with 15%nat in H. lia.
Qed.

(** ** Detector threshold *)

Lemma digitsFrom_numeral (d : Decimal.uint) (acc : Z) :
  Num.digitsFrom acc true (NilEmpty.string_of_uint d) = Some (uintValue acc d).
Proof.
  revert acc. induction d; intros acc; simpl; try reflexivity;
    change (Num.digitValue _) with 0 || change (Num.digitValue _) with 1 ||
    change (Num.digitValue _) with 2 || change (Num.digitValue _) with 3 ||
    change (Num.digitValue _) with 4 || change (Num.digitValue _) with 5 ||
    change (Num.digitValue _) with 6 || change (Num.digitValue _) with 7 ||
    change (Num.digitValue _) with 8 || change (Num.digitValue _) with 9;
    apply IHd.
Qed.

Lemma uintValue_of_uint_acc (d : Decimal.uint) (p : positive) :
  Z.pos (Pos.of_uint_acc d p) = uintValue (Z.pos p) d.
Proof.
  revert p. induction d; intros p; cbn [Pos.of_uint_acc uintValue];
    try reflexivity; rewrite IHd; apply (f_equal (fun a => uintValue a d)); lia.
Qed.

Lemma uintValue_of_uint (d : Decimal.uint) :
  Z.of_N (Pos.of_uint d) = uintValue 0 d.
Proof.
  induction d; simpl; try reflexivity; try exact IHd;
    apply uintValue_of_uint_acc.
Qed.

Lemma roundToDouble_exact (n : Z) :
  n < 2 ^ 53 -> Num.roundToDouble n = NumFin n.
Proof.
  intros H. unfold Num.roundToDouble.
  destruct (Z.ltb_spec n (2 ^ 53)); [reflexivity | lia].
Qed.

Lemma parseInt10_numeral (d : Decimal.uint) :
  d <> Decimal.Nil ->
  Num.parseInt10 (JStr (NilEmpty.string_of_uint d)) =
  Num.roundToDouble (uintValue 0 d).
Proof.
  intros Hnil. unfold Num.parseInt10.
  destruct d; try congruence;
    cbn [Js.toString NilEmpty.string_of_uint trimStart uintValue];
    simpl; rewrite digitsFrom_numeral; reflexivity.
Qed.

(** The numeral of a positive integer parses back to the integer, as
    long as a double holds it exactly. *)
Lemma parseInt10_decimal (n : Z) :
  0 < n < 2 ^ 53 -> Num.parseInt10 (JStr (decimal n)) = NumFin n.
Proof.
  intros [Hpos Hlt].
  destruct n as [|p|p]; try lia.
  unfold decimal. cbn [Z.to_int NilZero.string_of_int].
  pose proof (DecimalPos.Unsigned.to_uint_nonnil p) as Hnil.
  pose proof (uintValue_of_uint (Pos.to_uint p)) as Hu.
  rewrite DecimalPos.Unsigned.of_to in Hu. cbn [Z.of_N] in Hu.
  unfold NilZero.string_of_uint.
  destruct (Pos.to_uint p) eqn:E; try congruence;
    rewrite <- E in *; rewrite parseInt10_numeral by exact Hnil;
    rewrite <- Hu; apply roundToDouble_exact; exact Hlt.
Qed.

(** C7: the threshold is 3 when the input is unset, when it does not
    parse to a finite number, or when it parses to a value that is not
    positive; otherwise it is the parsed integer. In particular
    undefined, "abc" and "0" give 3 and "5" gives 5. *)
Theorem getDetectorThreshold_spec :
  getDetectorThreshold JUndefined = 3 /\
  getDetectorThreshold (JStr "abc") = 3 /\
  getDetectorThreshold (JStr "0") = 3 /\
  getDetectorThreshold (JStr "5") = 5 /\
  (forall raw, Num.isFinite (Num.parseInt10 raw) = false ->
               getDetectorThreshold raw = 3) /\
  (forall raw n, Num.parseInt10 raw = NumFin n -> n <= 0 ->
                 getDetectorThreshold raw = 3) /\
  (forall raw n, Num.parseInt10 raw = NumFin n -> 0 < n ->
                 getDetectorThreshold raw = n) /\
  (forall n, 0 < n < 2 ^ 53 -> getDetectorThreshold (JStr (decimal n)) = n).
Proof.
  assert (Hpos : forall raw n, Num.parseInt10 raw = NumFin n -> 0 < n ->
                               getDetectorThreshold raw = n).
  { intros raw n E Hn. unfold getDetectorThreshold. rewrite E.
    destruct (Z.leb_spec n 0); [lia | reflexivity]. }
  split; [vm_compute; reflexivity|].
  split; [vm_compute; reflexivity|].
  split; [vm_compute; reflexivity|].
  split; [vm_compute; reflexivity|].
  repeat split.
  - intros raw H. unfold getDetectorThreshold.
    destruct (Num.parseInt10 raw); try reflexivity. discriminate H.
  - intros raw n E Hn. unfold getDetectorThreshold. rewrite E.
    destruct (Z.leb_spec n 0); [reflexivity | lia].
  - exact Hpos.
  - intros n Hn. apply Hpos; [apply parseInt10_decimal; exact Hn | lia].
Qed.

Lemma getDetectorThreshold_spec_witness :
  getDetectorThreshold (JStr "threshold") = 3 /\
  getDetectorThreshold (JStr " -7 items") = 3 /\
  getDetectorThreshold (JStr "12px") = 12 /\
  getDetectorThreshold (JStr (decimal 42)) = 42.
Proof.
  destruct getDetectorThreshold_spec as (_ & _ & _ & _ & Hnan & Hle & Hpos & Hdec).
  split; [| split; [| split]].
  - apply Hnan. vm_compute. reflexivity.
  - apply (Hle _ (-7)); [vm_compute; reflexivity | lia].
  - apply (Hpos _ 12); [vm_compute; reflexivity | lia].
  - apply Hdec. split; [lia | reflexivity].
Defined.

(** ** Strings: trimming, case and slicing *)


Lemma toLowerCase_empty (s : string) :
  toLowerCase s = "" <-> s = "".
Proof.
  destruct s; simpl; split; intros H; try reflexivity; discriminate H.
Qed.







Lemma trimStart_allWhiteSpace (s : string) :
  allWhiteSpace s = true -> trimStart s = "".
Proof.
  induction s as [|c s IH]; simpl; [reflexivity|].
  destruct (isWhiteSpace c); simpl; [exact IH | discriminate].
Qed.

Lemma trim_allWhiteSpace (s : string) :
  allWhiteSpace s = true -> trim s = "".
Proof.
  intros H. unfold trim. now rewrite trimStart_allWhiteSpace.
Qed.

(** ** Payload normalizer *)

Lemma cleanString_whitespace (s : string) :
  allWhiteSpace s = true -> cleanString (JStr s) = "".
Proof.
  intros H. unfold cleanString. simpl. now apply trim_allWhiteSpace.
Qed.

(** C10: the alias precedence among email_id, emailId and message_id is
    decided by truthiness before trimming: a falsy email_id hands over to
    the later aliases, a truthy one is taken, and a white-space-only
    email_id is taken and then normalizes to the empty string whatever
    emailId and message_id carry. *)
Theorem parsePayload_identifier_precedence (event : JsValue) :
  let payload := selectPayload event in
  (Js.truthy (Js.get payload "email_id") = false ->
   Js.prop (parsePayload event) "email_id" =
   JStr (cleanString (Js.or (Js.get payload "emailId")
                            (Js.get payload "message_id")))) /\
  (Js.truthy (Js.get payload "email_id") = true ->
   Js.prop (parsePayload event) "email_id" =
   JStr (cleanString (Js.get payload "email_id"))) /\
  (forall s, Js.get payload "email_id" = JStr s ->
             nonEmpty s = true -> allWhiteSpace s = true ->
             Js.prop (parsePayload event) "email_id" = JStr "").
Proof.
  intros payload. unfold parsePayload. fold payload. cbn [Js.prop String.eqb].
  change (String.eqb "email_id" "email_id") with true. cbv iota.
  repeat split.
  - intros H. unfold Js.or at 2. rewrite H. reflexivity.
  - intros H. unfold Js.or at 2. rewrite H. unfold Js.or. rewrite H. reflexivity.
  - intros s E Hne Hws. unfold Js.or at 2. rewrite E. cbn [Js.truthy].
    rewrite Hne. unfold Js.or. cbn [Js.truthy]. rewrite Hne.
    now rewrite cleanString_whitespace.
Qed.

Lemma parsePayload_identifier_precedence_witness :
  Js.prop (parsePayload (JObj [ ("email_id", JStr "");
                                ("emailId", JStr " 18f9f4f2 ") ]))
          "email_id" = JStr "18f9f4f2" /\
  Js.prop (parsePayload (JObj [ ("email_id", JStr "m-1 ");
                                ("emailId", JStr "18f9f4f2") ]))
          "email_id" = JStr "m-1" /\
  Js.prop (parsePayload (JObj [ ("email_id", JStr "   ");
                                ("emailId", JStr "18f9f4f2");
                                ("message_id", JStr "m-1") ]))
          "email_id" = JStr "".
Proof.
  split; [| split].
  - exact (proj1 (parsePayload_identifier_precedence
                    (JObj [ ("email_id", JStr "");
                            ("emailId", JStr " 18f9f4f2 ") ])) eq_refl).
  - exact (proj1 (proj2 (parsePayload_identifier_precedence
                    (JObj [ ("email_id", JStr "m-1 ");
                            ("emailId", JStr "18f9f4f2") ]))) eq_refl).
  - exact (proj2 (proj2 (parsePayload_identifier_precedence
                    (JObj [ ("email_id", JStr "   ");
                            ("emailId", JStr "18f9f4f2");
                            ("message_id", JStr "m-1") ])))
                 "   " eq_refl eq_refl eq_refl).
Defined.

(** ** Dedupe key *)

Section DedupeKey.

Variable sha256Hex : string -> string.



(** C5: the key is a function of the six fields it reads, so payloads
    with the same content get the same key whatever else the objects
    hold; and with a present email_id the key is "email:" followed by
    the identifier, whatever the other fields are. *)
Theorem buildDedupeKey_deterministic :
  (forall p q : JsObject,
     (forall k, In k keyFields -> Js.prop p k = Js.prop q k) ->
     buildDedupeKey sha256Hex p = buildDedupeKey sha256Hex q) /\
  (forall p : JsObject,
     Js.truthy (Js.prop p "email_id") = true ->
     buildDedupeKey sha256Hex p = "email:" ++ Js.toString (Js.prop p "email_id")).
Proof.
  split.
  - intros p q H. unfold buildDedupeKey.
    rewrite (H "email_id"), (H "from"), (H "subject"), (H "date"),
            (H "snippet"), (H "body");
      try reflexivity; unfold keyFields; simpl; tauto.
  - intros p H. unfold buildDedupeKey. now rewrite H.
Qed.


End DedupeKey.

Lemma buildDedupeKey_deterministic_witness :
  buildDedupeKey plainDigest
    [ ("from", JStr "hr@company.com"); ("subject", JStr "Shortlisted");
      ("date", JStr "Sun, 01 Jan 2026 10:00:00 +0530");
      ("snippet", JStr "Invite for zoom call and assessment") ] =
  buildDedupeKey plainDigest
    [ ("snippet", JStr "Invite for zoom call and assessment");
      ("source", JStr "Gmail/Naukri");
      ("date", JStr "Sun, 01 Jan 2026 10:00:00 +0530");
      ("subject", JStr "Shortlisted"); ("from", JStr "hr@company.com") ] /\
  buildDedupeKey plainDigest
    [ ("email_id", JStr "18f9f4f2"); ("from", JStr "noreply@naukri.com");
      ("subject", JStr "Interview"); ("date", JStr "2026-01-01") ] =
  "email:18f9f4f2".
Proof.
  split.
  - apply (proj1 (buildDedupeKey_deterministic plainDigest)).
    intros k Hk. unfold keyFields in Hk. simpl in Hk.
    repeat (destruct Hk as [<- | Hk]; [reflexivity |]). contradiction.
  - exact (proj2 (buildDedupeKey_deterministic plainDigest)
             [ ("email_id", JStr "18f9f4f2"); ("from", JStr "noreply@naukri.com");
               ("subject", JStr "Interview"); ("date", JStr "2026-01-01") ]
             eq_refl).
Defined.


(** ** Request authenticator *)

Lemma findHeader_first (wanted : string) (pre post : list (string * JsValue))
      (k : string) (v : JsValue) :
  (forall k' v', In (k', v') pre -> toLowerCase k' <> wanted) ->
  toLowerCase k = wanted ->
  findHeader wanted (pre ++ (k, v) :: post)%list = cleanString (headerScalar v).
Proof.
  intros Hpre Hk.
  induction pre as [|[k' v'] pre IH]; simpl.
  - rewrite Hk, String.eqb_refl. simpl. destruct v; reflexivity.
  - destruct (String.eqb_spec (toLowerCase k') wanted) as [E|_]; simpl.
    + exfalso. apply (Hpre k' v'); [left; reflexivity | exact E].
    + apply IH. intros k2 v2 Hin. apply (Hpre k2 v2). right. exact Hin.
Qed.

Lemma findHeader_none (wanted : string) (es : list (string * JsValue)) :
  (forall k v, In (k, v) es -> toLowerCase k <> wanted) ->
  findHeader wanted es = "".
Proof.
  intros H. induction es as [|[k v] es IH]; simpl; [reflexivity|].
  destruct (String.eqb_spec (toLowerCase k) wanted) as [E|_]; simpl.
  - exfalso. apply (H k v); [left; reflexivity | exact E].
  - apply IH. intros k2 v2 Hin. apply (H k2 v2). right. exact Hin.
Qed.

Lemma getHeader_entries (headers : JsValue) (name : string) :
  getHeader headers name = findHeader (toLowerCase name) (Js.entries headers).
Proof.
  unfold getHeader.
  destruct headers; cbn [Js.truthy Js.isObjectType Js.entries findHeader negb orb];
    try reflexivity;
    match goal with |- (if ?c then _ else _) = _ => destruct c; reflexivity end.
Qed.

Lemma nonEmpty_false (s : string) : nonEmpty s = false <-> s = "".
Proof.
  destruct s; simpl; split; intros H; try reflexivity; discriminate H.
Qed.

(** C4, as the code has it: a secret that is unset, empty or only white
    space makes every request unauthorized and is logged as a
    configuration error; otherwise the first header whose name is
    x-webhook-secret in any letter case decides, and the request is
    authorized exactly when its value, converted to a string and trimmed,
    equals the trimmed secret; with no such header it is unauthorized. *)
Theorem isAuthorizedRequest_spec (event expectedSecret : JsValue) (w : World) :
  let secret := cleanString expectedSecret in
  let headers := requestHeaders event in
  (secret = "" ->
   isAuthorizedRequest event expectedSecret w =
   (Ok false, record (ConsoleError ["WEBHOOK_SECRET is not configured."]) w)) /\
  (secret <> "" ->
   forall pre k v post,
     Js.entries headers = (pre ++ (k, v) :: post)%list ->
     (forall k' v', In (k', v') pre -> toLowerCase k' <> secretHeader) ->
     toLowerCase k = secretHeader ->
     isAuthorizedRequest event expectedSecret w =
     (Ok (String.eqb (cleanString (headerScalar v)) secret), w)) /\
  (secret <> "" ->
   (forall k v, In (k, v) (Js.entries headers) -> toLowerCase k <> secretHeader) ->
   isAuthorizedRequest event expectedSecret w = (Ok false, w)).
Proof.
  intros secret headers. unfold isAuthorizedRequest. fold secret. fold headers.
  repeat split.
  - intros E. rewrite E. reflexivity.
  - intros Hne pre k v post Hentries Hpre Hk.
    destruct (nonEmpty secret) eqn:N;
      [| apply nonEmpty_false in N; contradiction].
    cbn [negb]. rewrite getHeader_entries, Hentries.
    change (toLowerCase "x-webhook-secret") with secretHeader.
    now rewrite (findHeader_first secretHeader pre post k v Hpre Hk).
  - intros Hne Hnone.
    destruct (nonEmpty secret) eqn:N;
      [| apply nonEmpty_false in N; contradiction].
    cbn [negb]. rewrite getHeader_entries.
    change (toLowerCase "x-webhook-secret") with secretHeader.
    rewrite (findHeader_none secretHeader _ Hnone).
    destruct secret; [discriminate N | reflexivity].
Qed.

Lemma isAuthorizedRequest_spec_witness :
  isAuthorizedRequest
    (JObj [ ("headers", JObj [ ("Host", JStr "example.twil.io");
                               ("X-Webhook-Secret", JStr "s3cret") ]) ])
    (JStr "   ") initialWorld =
  (Ok false, record (ConsoleError ["WEBHOOK_SECRET is not configured."]) initialWorld) /\
  isAuthorizedRequest
    (JObj [ ("headers", JObj [ ("Host", JStr "example.twil.io");
                               ("X-Webhook-Secret", JStr "s3cret");
                               ("x-webhook-secret", JStr "other") ]) ])
    (JStr "s3cret") initialWorld =
  (Ok true, initialWorld) /\
  isAuthorizedRequest
    (JObj [ ("headers", JObj [ ("Host", JStr "example.twil.io") ]) ])
    (JStr "s3cret") initialWorld =
  (Ok false, initialWorld).
Proof.
  split; [| split].
  - apply (proj1 (isAuthorizedRequest_spec _ (JStr "   ") initialWorld)).
    reflexivity.
  - apply (proj1 (proj2 (isAuthorizedRequest_spec _ (JStr "s3cret") initialWorld))
             ltac:(discriminate)
             [ ("Host", JStr "example.twil.io") ] "X-Webhook-Secret" (JStr "s3cret")
             [ ("x-webhook-secret", JStr "other") ]).
    + reflexivity.
    + intros k' v' [H | []]. injection H as <- <-. vm_compute. discriminate.
    + reflexivity.
  - apply (proj2 (proj2 (isAuthorizedRequest_spec _ (JStr "s3cret") initialWorld))).
    + vm_compute. discriminate.
    + intros k v [H | []]. injection H as <- <-. vm_compute. discriminate.
Defined.

(** C4 as stated fails: the configured secret " s3cret " and the header
    value "s3cret" are different strings, yet the request is authorized,
    because both sides are trimmed before they are compared. *)
Lemma isAuthorizedRequest_exact_match_counterexample :
  let event := JObj [ ("headers", JObj [ ("X-Webhook-Secret", JStr "s3cret") ]) ] in
  Js.get (requestHeaders event) "X-Webhook-Secret" = JStr "s3cret" /\
  JStr "s3cret" <> JStr " s3cret " /\
  fst (isAuthorizedRequest event (JStr " s3cret ") initialWorld) = Ok true.
Proof.
  repeat split; try (vm_compute; reflexivity). discriminate.
Qed.

Lemma isAuthorizedRequest_true_world (event expectedSecret : JsValue) (w : World) :
  fst (isAuthorizedRequest event expectedSecret w) = Ok true ->
  isAuthorizedRequest event expectedSecret w = (Ok true, w).
Proof.
  unfold isAuthorizedRequest.
  destruct (nonEmpty (cleanString expectedSecret)); cbn [negb].
  - unfold ret. cbn [fst]. intros H. injection H as ->. reflexivity.
  - intros H. discriminate H.
Qed.

(** ** Counting transport calls *)

Lemma sends_record (e : Effect) (w : World) :
  sends (trace (record e w)) =
  (sends (trace w) + (if isSend e then 1 else 0))%nat.
Proof.
  unfold sends, record. cbn [trace].
  rewrite filter_app, length_app. simpl.
  destruct (isSend e); reflexivity.
Qed.

Lemma sendsAtMost_weaken {A} (n m : nat) (c : M A) :
  (n <= m)%nat -> sendsAtMost n c -> sendsAtMost m c.
Proof.
  intros Hnm H w. specialize (H w). lia.
Qed.

Lemma sendsAtMost_ret {A} (a : A) : sendsAtMost 0 (ret a).
Proof. intros w. simpl. lia. Qed.

Lemma sendsAtMost_throw {A} (e : JsError) : sendsAtMost 0 (@throw A e).
Proof. intros w. simpl. lia. Qed.

Lemma sendsAtMost_bind {A B} (n m : nat) (c : M A) (k : A -> M B) :
  sendsAtMost n c -> (forall a, sendsAtMost m (k a)) ->
  sendsAtMost (n + m) (bind c k).
Proof.
  intros Hc Hk w. unfold bind. specialize (Hc w).
  destruct (c w) as [[a | e] w']; simpl in *.
  - specialize (Hk a w'). lia.
  - lia.
Qed.

Lemma sendsAtMost_tryCatch {A} (n m : nat) (c : M A) (h : JsError -> M A) :
  sendsAtMost n c -> (forall e, sendsAtMost m (h e)) ->
  sendsAtMost (n + m) (tryCatch c h).
Proof.
  intros Hc Hh w. unfold tryCatch. specialize (Hc w).
  destruct (c w) as [[a | e] w']; simpl in *.
  - lia.
  - specialize (Hh e w'). lia.
Qed.

Lemma sendsAtMost_perform {A} (e : Effect) (answer : list Effect -> Outcome A) :
  sendsAtMost (if isSend e then 1 else 0) (perform e answer).
Proof.
  intros w. unfold perform. cbn [snd]. rewrite sends_record. lia.
Qed.

Lemma sendsAtMost_getCached : sendsAtMost 0 getCached.
Proof. intros w. simpl. lia. Qed.

Lemma sendsAtMost_setCached (s : string) : sendsAtMost 0 (setCached s).
Proof. intros w. simpl. lia. Qed.

Create HintDb sends.
#[export] Hint Resolve sendsAtMost_ret sendsAtMost_throw sendsAtMost_getCached
  sendsAtMost_setCached : sends.

(** Bound a sequence whose first part does not send. *)
Lemma sendsAtMost_bind0 {A B} (m : nat) (c : M A) (k : A -> M B) :
  sendsAtMost 0 c -> (forall a, sendsAtMost m (k a)) -> sendsAtMost m (bind c k).
Proof.
  intros Hc Hk. exact (sendsAtMost_bind 0 m c k Hc Hk).
Qed.

Section Counting.

Variable sha256Hex : string -> string.
Variable inviteMarker : string.
Variable env : Env.

Lemma sendsAtMost_consoleError (args : list string) :
  sendsAtMost 0 (consoleError args).
Proof. exact (sendsAtMost_perform (ConsoleError args) _). Qed.

Lemma sendsAtMost_createMessage (params : MessageParams) :
  sendsAtMost 1 (createMessage env params).
Proof. exact (sendsAtMost_perform (MessagesCreate params) _). Qed.

Lemma sendsAtMost_sendWithRetry (params : MessageParams) :
  sendsAtMost 2 (sendWithRetry env params).
Proof.
  unfold sendWithRetry.
  apply (sendsAtMost_tryCatch 1 1); [apply sendsAtMost_createMessage|].
  intros e. destruct (isTransientError e); cbn [negb].
  - apply sendsAtMost_bind0.
    + exact (sendsAtMost_perform (Sleep SEND_RETRY_DELAY_MS) _).
    + intros _. apply sendsAtMost_createMessage.
  - apply (sendsAtMost_weaken 0); [lia | apply sendsAtMost_throw].
Qed.

Lemma sendsAtMost_resolveSyncServiceSid (context : JsObject) :
  sendsAtMost 0 (resolveSyncServiceSid env context).
Proof.
  unfold resolveSyncServiceSid.
  destruct (nonEmpty _); [apply sendsAtMost_ret|].
  apply sendsAtMost_bind0; [apply sendsAtMost_getCached|]. intros cached.
  destruct (cachedIsSet cached); [apply sendsAtMost_ret|].
  apply sendsAtMost_bind0; [exact (sendsAtMost_perform (ServicesList 20) _)|].
  intros services.
  destruct (find _ services).
  - apply sendsAtMost_bind0; auto with sends.
  - destruct services.
    + apply sendsAtMost_bind0;
        [exact (sendsAtMost_perform (ServicesCreate SYNC_SERVICE_NAME) _)|].
      intros created. apply sendsAtMost_bind0; auto with sends.
    + apply sendsAtMost_bind0; auto with sends.
Qed.

Lemma sendsAtMost_markAsProcessedIfNew (context : JsObject) (dedupeKey : string) :
  sendsAtMost 0 (markAsProcessedIfNew env context dedupeKey).
Proof.
  unfold markAsProcessedIfNew.
  apply sendsAtMost_bind0; [apply sendsAtMost_resolveSyncServiceSid|].
  intros serviceSid.
  apply sendsAtMost_bind0.
  - apply (sendsAtMost_tryCatch 0 0).
    + apply sendsAtMost_bind0; auto with sends.
      exact (sendsAtMost_perform (DocumentFetch serviceSid dedupeKey) _).
    + intros e. destruct (statusIs e 404); cbn [negb]; auto with sends.
  - intros found. destruct found; [apply sendsAtMost_ret|].
    apply (sendsAtMost_tryCatch 0 0).
    + apply sendsAtMost_bind0; auto with sends.
      intros w. unfold createDocument.
      exact (sendsAtMost_perform (DocumentCreate serviceSid dedupeKey _ _) _ w).
    + intros e. destruct (statusIs e 409); auto with sends.
Qed.

Lemma sendsAtMost_isAuthorizedRequest (event expectedSecret : JsValue) :
  sendsAtMost 0 (isAuthorizedRequest event expectedSecret).
Proof.
  unfold isAuthorizedRequest. destruct (nonEmpty _); cbn [negb].
  - apply sendsAtMost_ret.
  - apply sendsAtMost_bind0; [apply sendsAtMost_consoleError | auto with sends].
Qed.

Lemma sendsAtMost_handler (context : JsObject) (event : JsValue) :
  sendsAtMost 2 (handler sha256Hex inviteMarker env context event).
Proof.
  unfold handler.
  apply (sendsAtMost_tryCatch 2 0).
  - apply sendsAtMost_bind0; [apply sendsAtMost_isAuthorizedRequest|].
    intros authorized.
    destruct authorized; cbn [negb];
      [| apply (sendsAtMost_weaken 0); [lia | apply sendsAtMost_ret]].
    destruct (_ <? _); [apply (sendsAtMost_weaken 0); [lia | apply sendsAtMost_ret]|].
    destruct (ok _); cbn [negb].
    + apply sendsAtMost_bind0; [exact (sendsAtMost_perform (ClientInit _ _) _)|].
      intros _.
      apply sendsAtMost_bind0; [apply sendsAtMost_markAsProcessedIfNew|].
      intros isNew. destruct isNew; cbn [negb].
      * apply (sendsAtMost_bind 2 0); [apply sendsAtMost_sendWithRetry|].
        intros message. apply sendsAtMost_ret.
      * apply (sendsAtMost_weaken 0); [lia | apply sendsAtMost_ret].
    + apply (sendsAtMost_weaken 0); [lia|].
      apply sendsAtMost_bind0; [apply sendsAtMost_consoleError | auto with sends].
  - intros e.
    apply sendsAtMost_bind0; [apply sendsAtMost_consoleError | auto with sends].
Qed.

End Counting.

(** ** Delivery with one retry *)

Lemma isTransientError_iff (error : JsError) :
  isTransientError error = true <->
  exists code, reportedStatus error = Some code /\
               (code = 429 \/ 500 <= code < 600).
Proof.
  unfold isTransientError.
  destruct (reportedStatus error) as [code|]; split.
  - intros H. exists code. split; [reflexivity|].
    apply orb_true_iff in H. destruct H as [H | H].
    + left. now apply Z.eqb_eq.
    + right. apply andb_true_iff in H. destruct H as [H1 H2].
      split; [now apply Z.leb_le | now apply Z.ltb_lt].
  - intros (c & E & H). injection E as <-.
    apply orb_true_iff. destruct H as [H | [H1 H2]].
    + left. now apply Z.eqb_eq.
    + right. apply andb_true_iff. split; [now apply Z.leb_le | now apply Z.ltb_lt].
  - discriminate.
  - intros (c & E & _). discriminate E.
Qed.

(** C3: a failure is transient exactly when the reported status is 429
    or lies in [500, 600); after a transient first failure the sender
    sleeps 800 ms and calls the transport once more, and the outcome of
    that second call is the outcome of the send; a first success or a
    non-transient first failure ends the send after one call; so the
    transport is invoked at most twice, by the sender and by the handler
    as a whole. *)
Theorem sendWithRetry_spec (sha256Hex : string -> string) (inviteMarker : string)
        (env : Env) (params : MessageParams) (w : World) :
  let w1 := record (MessagesCreate params) w in
  let w2 := record (Sleep 800) w1 in
  let w3 := record (MessagesCreate params) w2 in
  (forall error,
     isTransientError error = true <->
     exists code, reportedStatus error = Some code /\
                  (code = 429 \/ 500 <= code < 600)) /\
  (forall message,
     messagesCreate env (trace w) params = Ok message ->
     sendWithRetry env params w = (Ok message, w1)) /\
  (forall error,
     messagesCreate env (trace w) params = Throw error ->
     isTransientError error = false ->
     sendWithRetry env params w = (Throw error, w1)) /\
  (forall error,
     messagesCreate env (trace w) params = Throw error ->
     isTransientError error = true ->
     sendWithRetry env params w = (messagesCreate env (trace w2) params, w3)) /\
  sendsAtMost 2 (sendWithRetry env params) /\
  (forall context event,
     sendsAtMost 2 (handler sha256Hex inviteMarker env context event)).
Proof.
  intros w1 w2 w3.
  split; [exact isTransientError_iff|].
  unfold sendWithRetry, tryCatch, createMessage, perform.
  repeat split.
  - intros message H. rewrite H. reflexivity.
  - intros error H Hnt. rewrite H, Hnt. reflexivity.
  - intros error H Ht. rewrite H, Ht. reflexivity.
  - apply sendsAtMost_sendWithRetry.
  - intros context event. apply sendsAtMost_handler.
Qed.

Lemma sendWithRetry_spec_witness :
  sendWithRetry (scriptedEnv (Ok tt) (Ok tt) failsOnce) sampleParams initialWorld =
  (Ok [("sid", JStr "SM0001")],
   mkWorld None [MessagesCreate sampleParams; Sleep 800; MessagesCreate sampleParams]) /\
  sendWithRetry (scriptedEnv (Ok tt) (Ok tt) (fun _ => Throw (httpError 400)))
                sampleParams initialWorld =
  (Throw (httpError 400), mkWorld None [MessagesCreate sampleParams]).
Proof.
  split.
  - exact (proj1 (proj2 (proj2 (proj2
             (sendWithRetry_spec plainDigest "Naukri Invite"
                (scriptedEnv (Ok tt) (Ok tt) failsOnce) sampleParams initialWorld))))
             (httpError 503) eq_refl eq_refl).
  - exact (proj1 (proj2 (proj2
             (sendWithRetry_spec plainDigest "Naukri Invite"
                (scriptedEnv (Ok tt) (Ok tt) (fun _ => Throw (httpError 400)))
                sampleParams initialWorld)))
             (httpError 400) eq_refl eq_refl).
Defined.

(** ** Deduplication *)

(** What the handler answers once the dedup step is over: "not new" is
    reported as 200 deduped, an error thrown by the step as 500
    internal_error after one log line. *)
Lemma handler_after_dedup (sha256Hex : string -> string) (inviteMarker : string)
      (env : Env) (context : JsObject) (event : JsValue) (w : World) :
  fst (isAuthorizedRequest event (Js.prop context "WEBHOOK_SECRET") w) = Ok true ->
  getDetectorThreshold (Js.prop context "DETECTOR_THRESHOLD") <=
    score (scorePayload (parsePayload event)) ->
  ok (assertSendConfig context) = true ->
  twilioInit env (trace w) (Js.prop context "TWILIO_ACCOUNT_SID")
             (Js.prop context "TWILIO_AUTH_TOKEN") = Ok tt ->
  let w1 := record (ClientInit (Js.prop context "TWILIO_ACCOUNT_SID")
                               (Js.prop context "TWILIO_AUTH_TOKEN")) w in
  let dedupeKey := buildDedupeKey sha256Hex (parsePayload event) in
  (forall w2,
     markAsProcessedIfNew env context dedupeKey w1 = (Ok false, w2) ->
     handler sha256Hex inviteMarker env context event w =
     (Ok (createJsonResponse 200 [("ok", JBool true); ("action", JStr "deduped")]),
      w2)) /\
  (forall error w2,
     markAsProcessedIfNew env context dedupeKey w1 = (Throw error, w2) ->
     handler sha256Hex inviteMarker env context event w =
     (Ok (createJsonResponse 500 [("ok", JBool false); ("error", JStr "internal_error")]),
      record (ConsoleError ["notify handler error:"; message error; stack error]) w2)).
Proof.
  intros Hauth Hscore Hcfg Hinit w1 dedupeKey.
  apply isAuthorizedRequest_true_world in Hauth.
  apply Z.ltb_ge in Hscore.
  unfold handler, tryCatch, bind. rewrite Hauth. cbn [negb].
  rewrite Hscore, Hcfg. cbn [negb].
  unfold twilio, perform. rewrite Hinit.
  fold w1. fold dedupeKey.
  split.
  - intros w2 H. rewrite H. reflexivity.
  - intros error w2 H. rewrite H. reflexivity.
Qed.

(** C2: once the store service is resolved, the dedup step fetches the
    record of the key. A record that is found ends the step with "not
    new" and no other call. A fetch that fails with 404 is followed by
    the creation of the record with a TTL of 24 hours: success means
    "new", a failure with 409 means "not new", any other failure is
    thrown. A fetch that fails with another status is thrown without a
    creation. A failure to resolve the service is thrown as well, and
    the step never invokes the transport. The handler reports "not new"
    as 200 deduped and a thrown error as 500 internal_error. *)
Theorem markAsProcessedIfNew_spec (env : Env) (context : JsObject)
        (dedupeKey : string) (w : World) :
  (forall serviceSid w1,
     resolveSyncServiceSid env context w = (Ok serviceSid, w1) ->
     let fetched := documentFetch env (trace w1) serviceSid dedupeKey in
     let w2 := record (DocumentFetch serviceSid dedupeKey) w1 in
     let createdAt := nowISO env (trace w2) in
     let created :=
       documentCreate env (trace w2) serviceSid dedupeKey createdAt 86400 in
     let w3 := record (DocumentCreate serviceSid dedupeKey createdAt 86400) w2 in
     (fetched = Ok tt ->
      markAsProcessedIfNew env context dedupeKey w = (Ok false, w2)) /\
     (forall error, fetched = Throw error -> status error <> Some 404 ->
      markAsProcessedIfNew env context dedupeKey w = (Throw error, w2)) /\
     (forall error, fetched = Throw error -> status error = Some 404 ->
      (created = Ok tt ->
       markAsProcessedIfNew env context dedupeKey w = (Ok true, w3)) /\
      (forall conflict, created = Throw conflict -> status conflict = Some 409 ->
       markAsProcessedIfNew env context dedupeKey w = (Ok false, w3)) /\
      (forall failure, created = Throw failure -> status failure <> Some 409 ->
       markAsProcessedIfNew env context dedupeKey w = (Throw failure, w3)))) /\
  (forall error w1,
     resolveSyncServiceSid env context w = (Throw error, w1) ->
     markAsProcessedIfNew env context dedupeKey w = (Throw error, w1)) /\
  sendsAtMost 0 (markAsProcessedIfNew env context dedupeKey) /\
  DEDUPE_TTL_SECONDS = 24 * 3600 /\
  (forall sha256Hex inviteMarker event w0,
     fst (isAuthorizedRequest event (Js.prop context "WEBHOOK_SECRET") w0) = Ok true ->
     getDetectorThreshold (Js.prop context "DETECTOR_THRESHOLD") <=
       score (scorePayload (parsePayload event)) ->
     ok (assertSendConfig context) = true ->
     twilioInit env (trace w0) (Js.prop context "TWILIO_ACCOUNT_SID")
                (Js.prop context "TWILIO_AUTH_TOKEN") = Ok tt ->
     let w1 := record (ClientInit (Js.prop context "TWILIO_ACCOUNT_SID")
                                  (Js.prop context "TWILIO_AUTH_TOKEN")) w0 in
     let key := buildDedupeKey sha256Hex (parsePayload event) in
     (forall w2,
        markAsProcessedIfNew env context key w1 = (Ok false, w2) ->
        handler sha256Hex inviteMarker env context event w0 =
        (Ok (createJsonResponse 200 [("ok", JBool true); ("action", JStr "deduped")]),
         w2)) /\
     (forall error w2,
        markAsProcessedIfNew env context key w1 = (Throw error, w2) ->
        handler sha256Hex inviteMarker env context event w0 =
        (Ok (createJsonResponse 500
               [("ok", JBool false); ("error", JStr "internal_error")]),
         record (ConsoleError ["notify handler error:"; message error; stack error]) w2))).
Proof.
  assert (Hyes : forall e n, status e = Some n -> statusIs e n = true).
  { intros e n H. unfold statusIs. rewrite H. apply Z.eqb_refl. }
  assert (Hno : forall e n, status e <> Some n -> statusIs e n = false).
  { intros e n H. unfold statusIs. destruct (status e) as [s|]; [|reflexivity].
    destruct (Z.eqb_spec s n); [subst; contradiction | reflexivity]. }
  split; [| split; [| split; [| split]]].
  - intros serviceSid w1 Hres fetched w2 createdAt created w3.
    subst fetched w2 createdAt created w3.
    unfold markAsProcessedIfNew, bind. rewrite Hres.
    unfold tryCatch, fetchDocument, createDocument, bind, perform.
    change DEDUPE_TTL_SECONDS with 86400. cbv beta zeta.
    split; [| split].
    + intros H. rewrite H. reflexivity.
    + intros error H Hs. rewrite H, (Hno _ _ Hs). reflexivity.
    + intros error H Hs. rewrite H, (Hyes _ _ Hs). cbn [negb ret].
      split; [| split].
      * intros Hc. rewrite Hc. reflexivity.
      * intros conflict Hc Hcs. rewrite Hc, (Hyes _ _ Hcs). reflexivity.
      * intros failure Hc Hcs. rewrite Hc, (Hno _ _ Hcs). reflexivity.
  - intros error w1 Hres. unfold markAsProcessedIfNew, bind.
    rewrite Hres. reflexivity.
  - apply sendsAtMost_markAsProcessedIfNew.
  - reflexivity.
  - intros sha256Hex inviteMarker event w0. apply handler_after_dedup.
Qed.

Lemma markAsProcessedIfNew_spec_witness :
  markAsProcessedIfNew (scriptedEnv (Ok tt) (Ok tt) failsOnce)
                       bareContext "email:18f9f4f2" initialWorld =
  (Ok false, mkWorld None [DocumentFetch "IS0001" "email:18f9f4f2"]) /\
  markAsProcessedIfNew (scriptedEnv (Throw (httpError 404)) (Ok tt) failsOnce)
                       bareContext "email:18f9f4f2" initialWorld =
  (Ok true,
   mkWorld None [ DocumentFetch "IS0001" "email:18f9f4f2";
                  DocumentCreate "IS0001" "email:18f9f4f2"
                                 "2026-01-01T10:00:00.000Z" 86400 ]) /\
  markAsProcessedIfNew (scriptedEnv (Throw (httpError 404)) (Throw (httpError 409)) failsOnce)
                       bareContext "email:18f9f4f2" initialWorld =
  (Ok false,
   mkWorld None [ DocumentFetch "IS0001" "email:18f9f4f2";
                  DocumentCreate "IS0001" "email:18f9f4f2"
                                 "2026-01-01T10:00:00.000Z" 86400 ]) /\
  markAsProcessedIfNew (scriptedEnv (Throw (httpError 503)) (Ok tt) failsOnce)
                       bareContext "email:18f9f4f2" initialWorld =
  (Throw (httpError 503), mkWorld None [DocumentFetch "IS0001" "email:18f9f4f2"]).
Proof.
  split; [| split; [| split]].
  - exact (proj1 (proj1 (markAsProcessedIfNew_spec
             (scriptedEnv (Ok tt) (Ok tt) failsOnce)
             bareContext "email:18f9f4f2" initialWorld)
             "IS0001" initialWorld eq_refl) eq_refl).
  - exact (proj1 (proj2 (proj2 (proj1 (markAsProcessedIfNew_spec
             (scriptedEnv (Throw (httpError 404)) (Ok tt) failsOnce)
             bareContext "email:18f9f4f2" initialWorld)
             "IS0001" initialWorld eq_refl)) (httpError 404) eq_refl eq_refl) eq_refl).
  - exact (proj1 (proj2 (proj2 (proj2 (proj1 (markAsProcessedIfNew_spec
             (scriptedEnv (Throw (httpError 404)) (Throw (httpError 409)) failsOnce)
             bareContext "email:18f9f4f2" initialWorld)
             "IS0001" initialWorld eq_refl)) (httpError 404) eq_refl eq_refl))
             (httpError 409) eq_refl eq_refl).
  - refine (proj1 (proj2 (proj1 (markAsProcessedIfNew_spec
             (scriptedEnv (Throw (httpError 503)) (Ok tt) failsOnce)
             bareContext "email:18f9f4f2" initialWorld)
             "IS0001" initialWorld eq_refl)) (httpError 503) eq_refl _).
    discriminate.
Defined.

(** ** Configuration check in the handler *)

Lemma filter_nonempty_iff {A} (f : A -> bool) (l : list A) :
  Nat.eqb (List.length (filter f l)) 0 = false <->
  exists x, In x l /\ f x = true.
Proof.
  induction l as [|a l IH]; simpl.
  - split; [discriminate | intros (x & [] & _)].
  - destruct (f a) eqn:E; simpl.
    + split; [intros _; exists a; auto | reflexivity].
    + rewrite IH. split.
      * intros (x & Hin & Hx). exists x. auto.
      * intros (x & [<- | Hin] & Hx); [congruence | exists x; auto].
Qed.

Lemma assertSendConfig_missing (context : JsObject) :
  ok (assertSendConfig context) = false <->
  exists key, In key requiredVars /\ cleanString (Js.prop context key) = "".
Proof.
  unfold assertSendConfig. cbn [ok]. rewrite filter_nonempty_iff.
  split; intros (key & Hin & H); exists key; split; try exact Hin.
  - apply nonEmpty_false. now apply negb_true_iff.
  - apply negb_true_iff. now apply nonEmpty_false.
Qed.

(** C1, as the code has it: for an authorized request the delivery
    configuration is looked at only once the score has reached the
    threshold. Below the threshold the answer is 200 ignored with the
    score, whatever the credentials are, and nothing outside is touched.
    At or above the threshold a missing credential is answered with 500
    missing_env after one log line, before the store or the transport is
    contacted. *)
Theorem handler_config_after_threshold (sha256Hex : string -> string)
        (inviteMarker : string) (env : Env)
        (context : JsObject) (event : JsValue) (w : World) :
  fst (isAuthorizedRequest event (Js.prop context "WEBHOOK_SECRET") w) = Ok true ->
  let threshold := getDetectorThreshold (Js.prop context "DETECTOR_THRESHOLD") in
  let points := score (scorePayload (parsePayload event)) in
  (points < threshold ->
   handler sha256Hex inviteMarker env context event w =
   (Ok (createJsonResponse 200
          [("ok", JBool true); ("action", JStr "ignored"); ("score", JNum points)]),
    w)) /\
  (threshold <= points ->
   (exists key, In key requiredVars /\ cleanString (Js.prop context key) = "") ->
   handler sha256Hex inviteMarker env context event w =
   (Ok (createJsonResponse 500 [("ok", JBool false); ("error", JStr "missing_env")]),
    record (ConsoleError [ "Missing required env vars:";
                           join ", " (missing (assertSendConfig context)) ]) w)).
Proof.
  intros Hauth threshold points.
  apply isAuthorizedRequest_true_world in Hauth.
  unfold handler, tryCatch, bind. rewrite Hauth. cbn [negb].
  fold threshold. fold points.
  split.
  - intros Hlt. apply Z.ltb_lt in Hlt. rewrite Hlt. reflexivity.
  - intros Hge Hmissing. apply Z.ltb_ge in Hge. rewrite Hge.
    apply assertSendConfig_missing in Hmissing. rewrite Hmissing.
    reflexivity.
Qed.

Lemma handler_config_after_threshold_witness :
  handler plainDigest "Naukri Invite" duplicateEnv bareContext newsletterEvent
          initialWorld =
  (Ok (createJsonResponse 200
         [("ok", JBool true); ("action", JStr "ignored"); ("score", JNum 0)]),
   initialWorld) /\
  handler plainDigest "Naukri Invite" duplicateEnv bareContext inviteEvent initialWorld =
  (Ok (createJsonResponse 500 [("ok", JBool false); ("error", JStr "missing_env")]),
   mkWorld None
     [ ConsoleError [ "Missing required env vars:";
                      "TWILIO_ACCOUNT_SID, TWILIO_AUTH_TOKEN, TWILIO_WHATSAPP_FROM, TWILIO_WHATSAPP_TO" ] ]).
Proof.
  split.
  - apply (proj1 (handler_config_after_threshold plainDigest "Naukri Invite"
                    duplicateEnv bareContext newsletterEvent initialWorld eq_refl)).
    vm_compute. reflexivity.
  - apply (proj2 (handler_config_after_threshold plainDigest "Naukri Invite"
                    duplicateEnv bareContext inviteEvent initialWorld eq_refl)).
    + vm_compute. discriminate.
    + exists "TWILIO_AUTH_TOKEN". split; [right; left; reflexivity | reflexivity].
Defined.

(** C1 as stated fails for duplicates: with the key already in the store
    the request is answered 200 deduped when the credentials are set, and
    500 missing_env when they are not. *)
Lemma handler_deduped_needs_config_counterexample :
  fst (handler plainDigest "Naukri Invite" duplicateEnv fullContext inviteEvent
               initialWorld) =
  Ok (createJsonResponse 200 [("ok", JBool true); ("action", JStr "deduped")]) /\
  fst (handler plainDigest "Naukri Invite" duplicateEnv bareContext inviteEvent
               initialWorld) =
  Ok (createJsonResponse 500 [("ok", JBool false); ("error", JStr "missing_env")]).
Proof.
  split; vm_compute; reflexivity.
Qed.

(** * Further properties of the webhook *)

(** ** Cleaning and clipping *)

Lemma trimStart_first (s : string) (c : ascii) :
  firstChar (trimStart s) = Some c -> isWhiteSpace c = false.
Proof.
  induction s as [|d s IH]; simpl; [discriminate|].
  destruct (isWhiteSpace d) eqn:E; [exact IH|].
  simpl. intros H. injection H as <-. exact E.
Qed.

Lemma trimStart_fixed (s : string) :
  (forall c, firstChar s = Some c -> isWhiteSpace c = false) -> trimStart s = s.
Proof.
  destruct s as [|d s]; simpl; [reflexivity|].
  intros H. now rewrite (H d eq_refl).
Qed.

Lemma trimEnd_first (s : string) (c : ascii) :
  (forall d, firstChar s = Some d -> isWhiteSpace d = false) ->
  firstChar (trimEnd s) = Some c -> isWhiteSpace c = false.
Proof.
  destruct s as [|d s]; simpl; [discriminate|].
  intros H. destruct (trimEnd s).
  - destruct (isWhiteSpace d); simpl; [discriminate|].
    intros E. injection E as <-. now apply H.
  - simpl. intros E. injection E as <-. now apply H.
Qed.

Lemma trimEnd_last (s : string) (c : ascii) :
  lastChar (trimEnd s) = Some c -> isWhiteSpace c = false.
Proof.
  induction s as [|d s IH]; simpl; [discriminate|].
  destruct (trimEnd s) as [|e r] eqn:E.
  - destruct (isWhiteSpace d) eqn:W; simpl; [discriminate|].
    intros H. injection H as <-. exact W.
  - exact IH.
Qed.

Lemma trim_noOuterSpace (s : string) : noOuterSpace (trim s).
Proof.
  unfold trim. split.
  - intros c. apply trimEnd_first. intros d. apply trimStart_first.
  - intros c. apply trimEnd_last.
Qed.

Lemma trim_fixed (s : string) : noOuterSpace s -> trim s = s.
Proof.
  intros [Hfirst Hlast]. unfold trim. rewrite (trimStart_fixed s Hfirst).
  clear Hfirst. induction s as [|d s IH]; simpl; [reflexivity|].
  destruct s as [|e r].
  - simpl. now rewrite (Hlast d eq_refl).
  - rewrite IH by exact Hlast. reflexivity.
Qed.

Lemma trim_idempotent (s : string) : trim (trim s) = trim s.
Proof.
  apply trim_fixed, trim_noOuterSpace.
Qed.

Lemma cleanString_noOuterSpace (value : JsValue) : noOuterSpace (cleanString value).
Proof.
  destruct value; try apply trim_noOuterSpace; split; discriminate.
Qed.

(** X1: cleanString yields a string without white space at either end,
    and cleaning a cleaned string changes nothing. *)
Theorem cleanString_normal_form (value : JsValue) :
  noOuterSpace (cleanString value) /\
  cleanString (JStr (cleanString value)) = cleanString value.
Proof.
  split; [apply cleanString_noOuterSpace|].
  unfold cleanString at 1. cbn [Js.toString].
  apply trim_fixed, cleanString_noOuterSpace.
Qed.

Lemma sliceTo_length (n : nat) (s : string) :
  String.length (sliceTo n s) = Nat.min n (String.length s).
Proof.
  revert s. induction n as [|n IH]; intros [|c s]; simpl; try reflexivity.
  now rewrite IH.
Qed.

Lemma sliceTo_all (n : nat) (s : string) :
  (String.length s <= n)%nat -> sliceTo n s = s.
Proof.
  revert s. induction n as [|n IH]; intros [|c s]; simpl; intros H;
    try reflexivity; try lia.
  rewrite IH by lia. reflexivity.
Qed.

Lemma sliceTo_prefix (n : nat) (s : string) :
  String.prefix (sliceTo n s) s = true.
Proof.
  revert s. induction n as [|n IH]; intros [|c s]; simpl; try reflexivity.
  destruct (ascii_dec c c) as [_|N]; [apply IH | contradiction].
Qed.

Lemma clip_sliceTo (value : JsValue) (maxLength : nat) :
  clip value maxLength = sliceTo maxLength (cleanString value).
Proof.
  unfold clip. destruct (cleanString value) as [|c r] eqn:E.
  - simpl. destruct maxLength; reflexivity.
  - cbn [nonEmpty negb].
    destruct (Nat.ltb_spec maxLength (String.length (String c r))).
    + reflexivity.
    + symmetry. apply sliceTo_all. exact H.
Qed.

Lemma sliceTo_rest (n : nat) (s : string) :
  exists rest, s = sliceTo n s ++ rest.
Proof.
  revert s. induction n as [|n IH]; intros s.
  - exists s. destruct s; reflexivity.
  - destruct s as [|c s]; [exists ""; reflexivity|].
    destruct (IH s) as (rest & E). exists rest. simpl. now rewrite <- E.
Qed.

(** X2: clip returns exactly the first maxLength code units of the
    cleaned text: its length is the smaller of maxLength and the length
    of the cleaned text, and the cleaned text is the result followed by
    what was cut off. *)
Theorem clip_bounds (value : JsValue) (maxLength : nat) :
  clip value maxLength = sliceTo maxLength (cleanString value) /\
  String.length (clip value maxLength) =
    Nat.min maxLength (String.length (cleanString value)) /\
  exists rest, cleanString value = clip value maxLength ++ rest.
Proof.
  rewrite clip_sliceTo. split; [reflexivity | split].
  - apply sliceTo_length.
  - apply sliceTo_rest.
Qed.

(** ** Normalized events *)

Lemma noOuterSpace_DEFAULT_SOURCE : noOuterSpace DEFAULT_SOURCE.
Proof.
  split; intros c H; vm_compute in H; injection H as <-; reflexivity.
Qed.

Lemma parsePayload_source (event : JsValue) :
  Js.prop (parsePayload event) "source" =
  JStr (let s := cleanString (Js.get (selectPayload event) "source") in
        if nonEmpty s then s else DEFAULT_SOURCE).
Proof. reflexivity. Qed.

Lemma source_wellformed (v : JsValue) :
  let s := (let c := cleanString v in if nonEmpty c then c else DEFAULT_SOURCE) in
  s <> "" /\ noOuterSpace s.
Proof.
  cbv zeta. destruct (cleanString v) as [|c r] eqn:E; cbn [nonEmpty].
  - split; [discriminate | apply noOuterSpace_DEFAULT_SOURCE].
  - split; [discriminate|]. rewrite <- E. apply cleanString_noOuterSpace.
Qed.

(** X3: a normalized event has exactly the seven properties email_id,
    subject, from, date, snippet, body and source, each a string without
    white space at either end; its source is never empty, and is the
    default label whenever the payload's source is absent or blank. *)
Theorem parsePayload_shape (event : JsValue) :
  map fst (parsePayload event) = eventFields /\
  (forall k, In k eventFields ->
     exists s, Js.prop (parsePayload event) k = JStr s /\ noOuterSpace s) /\
  (exists s, Js.prop (parsePayload event) "source" = JStr s /\ s <> "") /\
  (cleanString (Js.get (selectPayload event) "source") = "" ->
   Js.prop (parsePayload event) "source" = JStr DEFAULT_SOURCE).
Proof.
  split; [reflexivity|]. split; [| split].
  - intros k Hk. unfold eventFields in Hk. simpl in Hk.
    destruct Hk as [<-|[<-|[<-|[<-|[<-|[<-|[<-|[]]]]]]]];
      try (eexists; split; [reflexivity | apply cleanString_noOuterSpace]).
    eexists. split; [apply parsePayload_source | apply source_wellformed].
  - eexists. split; [apply parsePayload_source | apply source_wellformed].
  - intros H. rewrite parsePayload_source, H. reflexivity.
Qed.

Lemma parsePayload_shape_witness :
  Js.prop (parsePayload (JObj [ ("subject", JStr "Interview"); ("source", JStr "  ") ]))
          "source" = JStr "Gmail/Naukri".
Proof.
  apply (proj2 (proj2 (proj2 (parsePayload_shape
           (JObj [ ("subject", JStr "Interview"); ("source", JStr "  ") ]))))).
  reflexivity.
Defined.

Lemma cleanString_idempotent (value : JsValue) :
  cleanString (JStr (cleanString value)) = cleanString value.
Proof.
  unfold cleanString at 1. cbn [Js.toString].
  apply trim_fixed, cleanString_noOuterSpace.
Qed.

Lemma selectPayload_parsePayload (event : JsValue) :
  selectPayload (JObj (parsePayload event)) = JObj (parsePayload event).
Proof. reflexivity. Qed.

(** X4: normalization is idempotent: a normalized event, sent through
    parsePayload again, comes back unchanged. *)
Theorem parsePayload_idempotent (event : JsValue) :
  parsePayload (JObj (parsePayload event)) = parsePayload event.
Proof.
  unfold parsePayload at 1. rewrite selectPayload_parsePayload.
  cbn [Js.get].
  change (Js.prop (parsePayload event) "emailId") with JUndefined.
  change (Js.prop (parsePayload event) "message_id") with JUndefined.
  change (Js.prop (parsePayload event) "subject")
    with (JStr (cleanString (Js.get (selectPayload event) "subject"))).
  change (Js.prop (parsePayload event) "from")
    with (JStr (cleanString (Js.get (selectPayload event) "from"))).
  change (Js.prop (parsePayload event) "date")
    with (JStr (cleanString (Js.get (selectPayload event) "date"))).
  change (Js.prop (parsePayload event) "snippet")
    with (JStr (cleanString (Js.get (selectPayload event) "snippet"))).
  change (Js.prop (parsePayload event) "body")
    with (JStr (cleanString (Js.get (selectPayload event) "body"))).
  rewrite !cleanString_idempotent.
  rewrite parsePayload_source.
  set (id := Js.prop (parsePayload event) "email_id").
  assert (Hid : cleanString (Js.or (Js.or id JUndefined) JUndefined) =
                cleanString (Js.or (Js.or (Js.get (selectPayload event) "email_id")
                                          (Js.get (selectPayload event) "emailId"))
                                   (Js.get (selectPayload event) "message_id"))).
  { subst id.
    change (Js.prop (parsePayload event) "email_id")
      with (JStr (cleanString
                    (Js.or (Js.or (Js.get (selectPayload event) "email_id")
                                  (Js.get (selectPayload event) "emailId"))
                           (Js.get (selectPayload event) "message_id")))).
    pose proof (cleanString_idempotent
                  (Js.or (Js.or (Js.get (selectPayload event) "email_id")
                                (Js.get (selectPayload event) "emailId"))
                         (Js.get (selectPayload event) "message_id"))) as Hi.
    revert Hi. generalize (cleanString
                  (Js.or (Js.or (Js.get (selectPayload event) "email_id")
                                (Js.get (selectPayload event) "emailId"))
                         (Js.get (selectPayload event) "message_id"))).
    intros raw Hi. destruct raw as [|c r]; [reflexivity | exact Hi]. }
  rewrite Hid.
  assert (Hsrc : forall v,
            let s := (let c := cleanString v in
                      if nonEmpty c then c else DEFAULT_SOURCE) in
            (let c := cleanString (JStr s) in
             if nonEmpty c then c else DEFAULT_SOURCE) = s).
  { intros v. cbv zeta. destruct (cleanString v) as [|c r] eqn:E; cbn [nonEmpty].
    - reflexivity.
    - rewrite <- E, cleanString_idempotent, E. reflexivity. }
  unfold parsePayload. cbv zeta in Hsrc. rewrite Hsrc. reflexivity.
Qed.

(** X5: fields nested under an object-valued payload property are read
    from there: the event and its payload object normalize to the same
    event, as long as that object has no object-valued payload property
    of its own. *)
Theorem parsePayload_nested (event : JsValue) (fields : JsObject) :
  Js.get event "payload" = JObj fields ->
  Js.truthy (Js.prop fields "payload") && Js.isObjectType (Js.prop fields "payload") = false ->
  parsePayload event = parsePayload (JObj fields).
Proof.
  intros Hpayload Hinner.
  assert (E1 : selectPayload event = JObj fields).
  { unfold selectPayload. rewrite Hpayload. reflexivity. }
  assert (E2 : selectPayload (JObj fields) = JObj fields).
  { unfold selectPayload. cbn [Js.get]. rewrite Hinner. reflexivity. }
  unfold parsePayload. rewrite E1, E2. reflexivity.
Qed.

Lemma parsePayload_nested_witness :
  parsePayload (JObj [ ("subject", JStr "outer");
                       ("payload", JObj [ ("subject", JStr " Interview ");
                                          ("emailId", JStr "18f9f4f2") ]) ]) =
  parsePayload (JObj [ ("subject", JStr " Interview "); ("emailId", JStr "18f9f4f2") ]).
Proof.
  apply parsePayload_nested; reflexivity.
Defined.

(** ** Detector: threshold, letter case and overlapping keywords *)

Lemma scorePayload_filter (payload : JsObject) :
  scorePayload payload =
  mkScore (Z.of_nat (List.length (filter (includes (scoredText payload)) KEYWORDS)))
          (filter (includes (scoredText payload)) KEYWORDS).
Proof. apply scoreOver_filter. Qed.

Lemma filter_none {A} (f : A -> bool) (l : list A) :
  (forall x, In x l -> f x = false) -> filter f l = [].
Proof.
  induction l as [|a l IH]; intros H; simpl; [reflexivity|].
  rewrite (H a (or_introl eq_refl)). apply IH.
  intros x Hx. apply H. right. exact Hx.
Qed.

(** X6: the threshold is always at least 1, whatever is configured, so
    an authorized event whose text contains no keyword is answered 200
    ignored with score 0 under every configuration, without any call to
    the store or the transport. *)
Theorem threshold_positive_zero_score_ignored :
  (forall raw, 1 <= getDetectorThreshold raw) /\
  (forall sha256Hex inviteMarker env context event w,
     fst (isAuthorizedRequest event (Js.prop context "WEBHOOK_SECRET") w) = Ok true ->
     (forall kw, In kw KEYWORDS ->
                 includes (scoredText (parsePayload event)) kw = false) ->
     handler sha256Hex inviteMarker env context event w =
     (Ok (createJsonResponse 200
            [("ok", JBool true); ("action", JStr "ignored"); ("score", JNum 0)]),
      w)).
Proof.
  assert (Hpos : forall raw, 1 <= getDetectorThreshold raw).
  { intros raw. unfold getDetectorThreshold, DEFAULT_THRESHOLD.
    destruct (Num.parseInt10 raw) as [| |parsed]; try lia.
    destruct (Z.leb_spec parsed 0); lia. }
  split; [exact Hpos|].
  intros sha256Hex inviteMarker env context event w Hauth Hnone.
  apply isAuthorizedRequest_true_world in Hauth.
  unfold handler, tryCatch, bind. rewrite Hauth. cbn [negb].
  rewrite scorePayload_filter, (filter_none _ _ Hnone). cbn [score List.length Z.of_nat].
  specialize (Hpos (Js.prop context "DETECTOR_THRESHOLD")).
  destruct (Z.ltb_spec 0 (getDetectorThreshold (Js.prop context "DETECTOR_THRESHOLD")));
    [reflexivity | lia].
Qed.

Lemma threshold_positive_zero_score_ignored_witness :
  handler plainDigest "Naukri Invite" duplicateEnv
          (("DETECTOR_THRESHOLD", JStr "-5") :: fullContext) newsletterEvent initialWorld =
  (Ok (createJsonResponse 200
         [("ok", JBool true); ("action", JStr "ignored"); ("score", JNum 0)]),
   initialWorld).
Proof.
  apply (proj2 threshold_positive_zero_score_ignored); [reflexivity|].
  intros kw Hkw. unfold KEYWORDS in Hkw. simpl in Hkw.
  repeat (destruct Hkw as [<- | Hkw]; [vm_compute; reflexivity |]).
  contradiction.
Defined.

Lemma toLowerCase_append (a b : string) :
  toLowerCase (a ++ b) = toLowerCase a ++ toLowerCase b.
Proof.
  induction a as [|c a IH]; simpl; [reflexivity | now rewrite IH].
Qed.

Lemma sameUpToCase_toString (v w : JsValue) :
  sameUpToCase v w ->
  toLowerCase (Js.toString v) = toLowerCase (Js.toString w).
Proof.
  unfold sameUpToCase.
  destruct v, w; intros H; try reflexivity; try discriminate H;
    try (injection H as ->; reflexivity).
  exact H.
Qed.

(** X7: scoring does not see letter case: payloads whose subject,
    snippet and body differ only in letter case get the same score and
    the same matched keywords. *)
Theorem scorePayload_case_insensitive (p q : JsObject) :
  sameUpToCase (Js.prop p "subject") (Js.prop q "subject") ->
  sameUpToCase (Js.prop p "snippet") (Js.prop q "snippet") ->
  sameUpToCase (Js.prop p "body") (Js.prop q "body") ->
  scorePayload p = scorePayload q.
Proof.
  intros Hsubject Hsnippet Hbody.
  assert (E : scoredText p = scoredText q).
  { unfold scoredText. rewrite !toLowerCase_append.
    now rewrite (sameUpToCase_toString _ _ Hsubject),
                (sameUpToCase_toString _ _ Hsnippet),
                (sameUpToCase_toString _ _ Hbody). }
  unfold scorePayload, scoreOver. now rewrite E.
Qed.

Lemma scorePayload_case_insensitive_witness :
  scorePayload [ ("subject", JStr "INTERVIEW Invite"); ("snippet", JStr "Zoom CALL") ] =
  scorePayload [ ("subject", JStr "interview invite"); ("snippet", JStr "zoom call") ].
Proof.
  apply scorePayload_case_insensitive; reflexivity.
Defined.

Lemma prefix_empty (t : string) : String.prefix "" t = true.
Proof. destruct t; reflexivity. Qed.

Lemma prefix_app_left (a b t : string) :
  String.prefix (a ++ b) t = true -> String.prefix a t = true.
Proof.
  revert t. induction a as [|c a IH]; intros t H; [apply prefix_empty|].
  destruct t as [|d t]; simpl in *; [discriminate H|].
  destruct (ascii_dec c d); [now apply IH | discriminate H].
Qed.

Lemma includes_app_left (text a b : string) :
  includes text (a ++ b) = true -> includes text a = true.
Proof.
  induction text as [|c text IH]; cbn [includes]; intros H.
  - apply orb_true_iff in H. destruct H as [H | H]; [|discriminate H].
    apply prefix_app_left in H. now rewrite H.
  - apply orb_true_iff in H. apply orb_true_iff. destruct H as [H | H].
    + left. now apply (prefix_app_left a b).
    + right. now apply IH.
Qed.

(** X8: the matched list holds exactly the table keywords that occur in
    the lower-cased text; since "naukri" occurs wherever "naukri.com"
    does, a text that matches "naukri.com" also matches "naukri" and
    scores at least 2. *)
Theorem scorePayload_overlapping_keywords (payload : JsObject) :
  (forall kw, In kw (matched (scorePayload payload)) <->
              In kw KEYWORDS /\ includes (scoredText payload) kw = true) /\
  (In "naukri.com" (matched (scorePayload payload)) ->
   In "naukri" (matched (scorePayload payload)) /\
   2 <= score (scorePayload payload)).
Proof.
  rewrite scorePayload_filter. cbn [score matched].
  set (f := includes (scoredText payload)).
  split; [intros kw; apply filter_In|].
  intros H. apply filter_In in H. destruct H as [_ Hcom].
  assert (Hn : f "naukri" = true)
    by (apply (includes_app_left _ "naukri" ".com"); exact Hcom).
  assert (Hin1 : In "naukri" (filter f KEYWORDS)).
  { apply filter_In. split; [|exact Hn]. unfold KEYWORDS. simpl. tauto. }
  assert (Hin2 : In "naukri.com" (filter f KEYWORDS)).
  { apply filter_In. split; [|exact Hcom]. unfold KEYWORDS. simpl. tauto. }
  split; [exact Hin1|].
  assert (Hlen : (List.length ["naukri"; "naukri.com"] <=
                  List.length (filter f KEYWORDS))%nat).
  { apply NoDup_incl_length.
    - repeat (constructor; [simpl; intuition discriminate|]). constructor.
    - intros x [<- | [<- | []]]; assumption. }
  change (List.length ["naukri"; "naukri.com"]) with 2%nat in Hlen. lia.
Qed.

Lemma scorePayload_overlapping_keywords_witness :
  In "naukri" (matched (scorePayload [ ("subject", JStr "Mail from Naukri.com") ])) /\
  2 <= score (scorePayload [ ("subject", JStr "Mail from Naukri.com") ]).
Proof.
  apply (proj2 (scorePayload_overlapping_keywords
                  [ ("subject", JStr "Mail from Naukri.com") ])).
  vm_compute. tauto.
Defined.

(** ** Dedupe key: identifiers, white space and the clipped excerpt *)

(** X9: keys built from identifiers are as distinct as the identifiers:
    two payloads with a present email_id get the same key exactly when
    their identifiers print the same, and a key built from an identifier
    never equals a key built from a content hash. *)
Theorem buildDedupeKey_identifier_injective (sha256Hex : string -> string)
        (p q : JsObject) :
  Js.truthy (Js.prop p "email_id") = true ->
  (Js.truthy (Js.prop q "email_id") = true ->
   (buildDedupeKey sha256Hex p = buildDedupeKey sha256Hex q <->
    Js.toString (Js.prop p "email_id") = Js.toString (Js.prop q "email_id"))) /\
  (Js.truthy (Js.prop q "email_id") = false ->
   buildDedupeKey sha256Hex p <> buildDedupeKey sha256Hex q).
Proof.
  intros Hp. unfold buildDedupeKey. rewrite Hp. split; intros Hq; rewrite Hq.
  - split; intros H.
    + simpl in H. now injection H.
    + now rewrite H.
  - simpl. discriminate.
Qed.

Lemma buildDedupeKey_identifier_injective_witness :
  buildDedupeKey plainDigest [ ("email_id", JStr "18f9f4f2"); ("subject", JStr "a") ] <>
  buildDedupeKey plainDigest [ ("subject", JStr "a") ].
Proof.
  apply (proj2 (buildDedupeKey_identifier_injective plainDigest
                  [ ("email_id", JStr "18f9f4f2"); ("subject", JStr "a") ]
                  [ ("subject", JStr "a") ] eq_refl)).
  reflexivity.
Defined.

(** X10: without an email_id the key depends only on the cleaned from,
    subject and date and on the first 200 code units of the cleaned
    excerpt (snippet, else body): white space around a field and
    whatever follows those 200 code units do not change the key. *)
Theorem buildDedupeKey_clipped_content (sha256Hex : string -> string)
        (p q : JsObject) :
  Js.truthy (Js.prop p "email_id") = false ->
  Js.truthy (Js.prop q "email_id") = false ->
  cleanString (Js.prop p "from") = cleanString (Js.prop q "from") ->
  cleanString (Js.prop p "subject") = cleanString (Js.prop q "subject") ->
  cleanString (Js.prop p "date") = cleanString (Js.prop q "date") ->
  sliceTo 200 (cleanString (Js.or (Js.prop p "snippet") (Js.prop p "body"))) =
  sliceTo 200 (cleanString (Js.or (Js.prop q "snippet") (Js.prop q "body"))) ->
  buildDedupeKey sha256Hex p = buildDedupeKey sha256Hex q.
Proof.
  intros Hp Hq Hfrom Hsubject Hdate Hexcerpt.
  unfold buildDedupeKey. rewrite Hp, Hq, !clip_sliceTo. cbn [map].
  now rewrite Hfrom, Hsubject, Hdate, Hexcerpt.
Qed.

Lemma buildDedupeKey_clipped_content_witness :
  buildDedupeKey plainDigest
    [ ("from", JStr " hr@company.com"); ("subject", JStr "Shortlisted ");
      ("snippet", JStr "  Invite for zoom call") ] =
  buildDedupeKey plainDigest
    [ ("from", JStr "hr@company.com"); ("subject", JStr "Shortlisted");
      ("snippet", JNull); ("body", JStr "Invite for zoom call  ") ].
Proof.
  apply buildDedupeKey_clipped_content; vm_compute; reflexivity.
Defined.

(** ** Delivery configuration *)

(** X11: the configuration is ok exactly when none of the four required
    variables is absent or blank; the missing list holds exactly the
    absent or blank ones, in the order of the required list, and is
    empty exactly when the configuration is ok. *)
Theorem assertSendConfig_spec (context : JsObject) :
  (ok (assertSendConfig context) = true <->
   forall key, In key requiredVars -> cleanString (Js.prop context key) <> "") /\
  (ok (assertSendConfig context) = true <-> missing (assertSendConfig context) = []) /\
  (forall key, In key (missing (assertSendConfig context)) <->
               In key requiredVars /\ cleanString (Js.prop context key) = "") /\
  Subsequence (missing (assertSendConfig context)) requiredVars.
Proof.
  unfold assertSendConfig. cbn [ok missing].
  set (blank := fun key => negb (nonEmpty (cleanString (Js.prop context key)))).
  assert (Hblank : forall key, blank key = true <->
                               cleanString (Js.prop context key) = "").
  { intros key. unfold blank. rewrite negb_true_iff. apply nonEmpty_false. }
  assert (Hnil : Nat.eqb (List.length (filter blank requiredVars)) 0 = true <->
                 filter blank requiredVars = []).
  { destruct (filter blank requiredVars); simpl; split; congruence. }
  split; [| split; [exact Hnil | split]].
  - rewrite Hnil. split.
    + intros E key Hin Hempty.
      assert (Hf : In key (filter blank requiredVars))
        by (apply filter_In; split; [exact Hin | now apply Hblank]).
      rewrite E in Hf. exact Hf.
    + intros H. apply filter_none. intros key Hin.
      destruct (blank key) eqn:B; [|reflexivity].
      exfalso. apply (H key Hin). now apply Hblank.
  - intros key. rewrite filter_In, Hblank. reflexivity.
  - apply filter_Subsequence.
Qed.

Lemma assertSendConfig_spec_witness :
  ok (assertSendConfig fullContext) = true.
Proof.
  apply (proj1 (assertSendConfig_spec fullContext)).
  intros key Hin. unfold requiredVars in Hin. simpl in Hin.
  repeat (destruct Hin as [<- | Hin]; [vm_compute; discriminate |]).
  contradiction.
Defined.

(** ** Authenticator: what an accepted request carries *)

Lemma findHeader_found (wanted : string) (es : list (string * JsValue)) :
  findHeader wanted es <> "" ->
  exists k v, In (k, v) es /\ toLowerCase k = wanted /\
              findHeader wanted es = cleanString (headerScalar v).
Proof.
  induction es as [|[k v] es IH]; simpl; intros H; [contradiction|].
  destruct (String.eqb_spec (toLowerCase k) wanted) as [E|N]; cbn [negb] in *.
  - exists k, v. split; [left; reflexivity | split; [exact E|]].
    destruct v; reflexivity.
  - destruct (IH H) as (k' & v' & Hin & Hk & Hv).
    exists k', v'. split; [right; exact Hin | split; assumption].
Qed.

(** X12: a request that the authenticator accepts always carries a
    header named x-webhook-secret (in some letter case) whose cleaned
    value is not empty and equals the cleaned secret; the configured
    secret is then not blank either. *)
Theorem isAuthorizedRequest_accepts_only_matching (event expectedSecret : JsValue)
        (w : World) :
  fst (isAuthorizedRequest event expectedSecret w) = Ok true ->
  cleanString expectedSecret <> "" /\
  exists k v, In (k, v) (Js.entries (requestHeaders event)) /\
              toLowerCase k = secretHeader /\
              cleanString (headerScalar v) = cleanString expectedSecret /\
              cleanString (headerScalar v) <> "".
Proof.
  unfold isAuthorizedRequest.
  destruct (cleanString expectedSecret) as [|c r] eqn:E; cbn [nonEmpty negb].
  - intros H. discriminate H.
  - unfold ret. cbn [fst]. intros H. injection H as H.
    apply String.eqb_eq in H. split; [discriminate|].
    rewrite getHeader_entries in H.
    change (toLowerCase "x-webhook-secret") with secretHeader in H.
    destruct (findHeader_found secretHeader (Js.entries (requestHeaders event)))
      as (k & v & Hin & Hk & Hv); [rewrite H; discriminate|].
    exists k, v. split; [exact Hin | split; [exact Hk|]].
    rewrite <- Hv, H. split; [reflexivity | discriminate].
Qed.

Lemma isAuthorizedRequest_accepts_only_matching_witness :
  cleanString (JStr "s3cret") <> "" /\
  exists k v, In (k, v) (Js.entries (requestHeaders newsletterEvent)) /\
              toLowerCase k = secretHeader /\
              cleanString (headerScalar v) = cleanString (JStr "s3cret") /\
              cleanString (headerScalar v) <> "".
Proof.
  apply (isAuthorizedRequest_accepts_only_matching
           newsletterEvent (JStr "s3cret") initialWorld).
  reflexivity.
Defined.

(** ** Resolving the store service *)

Section Resolve.

Variable env : Env.
Variable context : JsObject.

Let provided : string := cleanString (Js.prop context "TWILIO_SYNC_SERVICE_SID").

Let named (svc : Service) : bool := String.eqb (friendlyName svc) SYNC_SERVICE_NAME.

Lemma resolve_provided (w : World) :
  provided <> "" -> resolveSyncServiceSid env context w = (Ok provided, w).
Proof.
  intros H. unfold resolveSyncServiceSid. fold provided.
  destruct provided; [contradiction | reflexivity].
Qed.

Lemma resolve_cached (w : World) (cached : string) :
  provided = "" -> cachedSyncServiceSid w = Some cached -> cached <> "" ->
  resolveSyncServiceSid env context w = (Ok cached, w).
Proof.
  intros Hp Hc Hne. unfold resolveSyncServiceSid. fold provided. rewrite Hp.
  cbn [nonEmpty]. unfold bind, getCached. rewrite Hc. cbn [cachedIsSet].
  destruct cached; [contradiction | reflexivity].
Qed.

(** The run of a resolution that has to ask the store. *)
Lemma resolve_lookup (w : World) :
  provided = "" -> cachedIsSet (cachedSyncServiceSid w) = false ->
  resolveSyncServiceSid env context w =
  let w1 := record (ServicesList 20) w in
  match servicesList env (trace w) 20 with
  | Throw e => (Throw e, w1)
  | Ok services =>
      match find named services with
      | Some found => (Ok (sid found), mkWorld (Some (sid found)) (trace w1))
      | None =>
          match services with
          | first :: _ => (Ok (sid first), mkWorld (Some (sid first)) (trace w1))
          | [] =>
              let w2 := record (ServicesCreate SYNC_SERVICE_NAME) w1 in
              match servicesCreate env (trace w1) SYNC_SERVICE_NAME with
              | Ok created =>
                  (Ok (sid created), mkWorld (Some (sid created)) (trace w2))
              | Throw e => (Throw e, w2)
              end
          end
      end
  end.
Proof.
  intros Hp Hc. unfold resolveSyncServiceSid. fold provided. rewrite Hp.
  cbn [nonEmpty]. unfold bind at 1. unfold getCached. rewrite Hc.
  unfold bind at 1. unfold perform at 1. cbv zeta.
  destruct (servicesList env (trace w) 20) as [services | e]; [|reflexivity].
  fold named. destruct (find named services) as [found|]; [reflexivity|].
  destruct services as [|first rest]; [|reflexivity].
  unfold bind, perform.
  destruct (servicesCreate env _ SYNC_SERVICE_NAME); reflexivity.
Qed.

(** The calls a resolution makes: none, one listing, or one listing and
    one creation, the creation only after an empty listing. *)
Lemma resolve_trace (w : World) :
  let w' := snd (resolveSyncServiceSid env context w) in
  trace w' = trace w \/
  trace w' = (trace w ++ [ServicesList 20])%list \/
  (trace w' = (trace w ++ [ServicesList 20; ServicesCreate SYNC_SERVICE_NAME])%list /\
   servicesList env (trace w) 20 = Ok []).
Proof.
  cbv zeta.
  destruct provided eqn:Hp.
  2:{ left. rewrite resolve_provided; [reflexivity | rewrite Hp; discriminate]. }
  destruct (cachedIsSet (cachedSyncServiceSid w)) eqn:Hc.
  { left. destruct (cachedSyncServiceSid w) as [cached|] eqn:E; [|discriminate Hc].
    rewrite (resolve_cached w cached Hp E); [reflexivity|].
    intros ->. discriminate Hc. }
  rewrite (resolve_lookup w Hp Hc). cbv zeta.
  destruct (servicesList env (trace w) 20) as [services | e];
    [| right; left; reflexivity].
  destruct (find named services); [right; left; reflexivity|].
  destruct services; [| right; left; reflexivity].
  right. right. split; [|reflexivity].
  destruct (servicesCreate env _ SYNC_SERVICE_NAME); cbn [snd trace record];
    rewrite <- app_assoc; reflexivity.
Qed.

Lemma resolve_caches (w w' : World) (s : string) :
  resolveSyncServiceSid env context w = (Ok s, w') ->
  provided <> "" \/ cachedSyncServiceSid w' = Some s.
Proof.
  intros H.
  destruct provided eqn:Hp; [| left; discriminate].
  right.
  destruct (cachedIsSet (cachedSyncServiceSid w)) eqn:Hc.
  { destruct (cachedSyncServiceSid w) as [cached|] eqn:E; [|discriminate Hc].
    rewrite (resolve_cached w cached Hp E) in H by (intros ->; discriminate Hc).
    injection H as <- <-. exact E. }
  rewrite (resolve_lookup w Hp Hc) in H. cbv zeta in H.
  destruct (servicesList env (trace w) 20) as [services | e]; [|discriminate H].
  destruct (find named services); [injection H as <- <-; reflexivity|].
  destruct services; [| injection H as <- <-; reflexivity].
  destruct (servicesCreate env _ SYNC_SERVICE_NAME); [|discriminate H].
  injection H as <- <-. reflexivity.
Qed.

End Resolve.

(** X13: how the store service is resolved. A configured service id
    wins without any call; otherwise a cached id is used without any
    call; otherwise the services are listed once, the first one with
    the fixed friendly name is preferred over the first one listed, a
    service is created only when the list is empty, the chosen id is
    cached, and an error of the listing or of the creation is thrown. *)
Theorem resolveSyncServiceSid_order (env : Env) (context : JsObject) (w : World) :
  let provided := cleanString (Js.prop context "TWILIO_SYNC_SERVICE_SID") in
  let named := fun svc => String.eqb (friendlyName svc) SYNC_SERVICE_NAME in
  let w1 := record (ServicesList 20) w in
  let w2 := record (ServicesCreate SYNC_SERVICE_NAME) w1 in
  (provided <> "" -> resolveSyncServiceSid env context w = (Ok provided, w)) /\
  (provided = "" ->
   forall cached, cachedSyncServiceSid w = Some cached -> cached <> "" ->
   resolveSyncServiceSid env context w = (Ok cached, w)) /\
  (provided = "" -> cachedIsSet (cachedSyncServiceSid w) = false ->
   (forall e, servicesList env (trace w) 20 = Throw e ->
      resolveSyncServiceSid env context w = (Throw e, w1)) /\
   (forall services found,
      servicesList env (trace w) 20 = Ok services ->
      find named services = Some found ->
      resolveSyncServiceSid env context w =
      (Ok (sid found), mkWorld (Some (sid found)) (trace w1))) /\
   (forall first rest,
      servicesList env (trace w) 20 = Ok (first :: rest) ->
      find named (first :: rest) = None ->
      resolveSyncServiceSid env context w =
      (Ok (sid first), mkWorld (Some (sid first)) (trace w1))) /\
   (servicesList env (trace w) 20 = Ok [] ->
    (forall created,
       servicesCreate env (trace w1) SYNC_SERVICE_NAME = Ok created ->
       resolveSyncServiceSid env context w =
       (Ok (sid created), mkWorld (Some (sid created)) (trace w2))) /\
    (forall e,
       servicesCreate env (trace w1) SYNC_SERVICE_NAME = Throw e ->
       resolveSyncServiceSid env context w = (Throw e, w2)))).
Proof.
  intros provided named w1 w2.
  split; [apply resolve_provided|].
  split; [intros Hp cached; now apply resolve_cached|].
  intros Hp Hc. rewrite (resolve_lookup env context w Hp Hc). cbv zeta.
  fold w1. fold w2. fold named.
  split; [| split; [| split]].
  - intros e H. rewrite H. reflexivity.
  - intros services found H Hf. rewrite H, Hf. reflexivity.
  - intros first rest H Hf. rewrite H, Hf. reflexivity.
  - intros H. rewrite H. cbn [find]. split.
    + intros created Hcr. rewrite Hcr. reflexivity.
    + intros e Hcr. rewrite Hcr. reflexivity.
Qed.

Lemma resolveSyncServiceSid_order_witness :
  resolveSyncServiceSid (listingEnv []) bareContext initialWorld =
  (Ok "IS0001", initialWorld) /\
  resolveSyncServiceSid
    (listingEnv [ mkService "other" "IS0007"; mkService SYNC_SERVICE_NAME "IS0009" ])
    secretContext initialWorld =
  (Ok "IS0009", mkWorld (Some "IS0009") [ServicesList 20]) /\
  resolveSyncServiceSid (listingEnv []) secretContext initialWorld =
  (Ok "IS0001",
   mkWorld (Some "IS0001") [ServicesList 20; ServicesCreate SYNC_SERVICE_NAME]).
Proof.
  split; [| split].
  - apply (proj1 (resolveSyncServiceSid_order (listingEnv []) bareContext initialWorld)).
    vm_compute. discriminate.
  - exact (proj1 (proj2 (proj2 (proj2 (resolveSyncServiceSid_order
             (listingEnv [ mkService "other" "IS0007";
                           mkService SYNC_SERVICE_NAME "IS0009" ])
             secretContext initialWorld)) eq_refl eq_refl))
             [ mkService "other" "IS0007"; mkService SYNC_SERVICE_NAME "IS0009" ]
             (mkService SYNC_SERVICE_NAME "IS0009") eq_refl eq_refl).
  - exact (proj1 (proj2 (proj2 (proj2 (proj2 (proj2 (resolveSyncServiceSid_order
             (listingEnv []) secretContext initialWorld)) eq_refl eq_refl)))
             eq_refl) (mkService SYNC_SERVICE_NAME "IS0001") eq_refl).
Defined.

(** X14: the resolved service id is remembered: after a resolution that
    returned a non-empty id, the next resolution returns the same id
    without any call and without changing the world. *)
Theorem resolveSyncServiceSid_cached_after (env : Env) (context : JsObject)
        (w w' : World) (s : string) :
  resolveSyncServiceSid env context w = (Ok s, w') ->
  s <> "" ->
  resolveSyncServiceSid env context w' = (Ok s, w').
Proof.
  intros H Hne.
  destruct (cleanString (Js.prop context "TWILIO_SYNC_SERVICE_SID")) as [|c r] eqn:Hp.
  - destruct (resolve_caches env context w w' s H) as [Hprov | Hc].
    + exfalso. apply Hprov. exact Hp.
    + now apply resolve_cached.
  - assert (Hprov : cleanString (Js.prop context "TWILIO_SYNC_SERVICE_SID") <> "")
      by (rewrite Hp; discriminate).
    rewrite (resolve_provided env context w Hprov) in H. injection H as <- <-.
    now apply resolve_provided.
Qed.

Lemma resolveSyncServiceSid_cached_after_witness :
  resolveSyncServiceSid (listingEnv [])
    secretContext
    (mkWorld (Some "IS0001") [ServicesList 20; ServicesCreate SYNC_SERVICE_NAME]) =
  (Ok "IS0001",
   mkWorld (Some "IS0001") [ServicesList 20; ServicesCreate SYNC_SERVICE_NAME]).
Proof.
  apply (resolveSyncServiceSid_cached_after (listingEnv []) secretContext initialWorld);
    [reflexivity | discriminate].
Defined.

(** X15: a resolution calls the store at most twice: it makes no call,
    or lists the services once, or lists them once and creates one
    service, and it creates a service only when the list came back
    empty. *)
Theorem resolveSyncServiceSid_calls (env : Env) (context : JsObject) (w : World) :
  let w' := snd (resolveSyncServiceSid env context w) in
  trace w' = trace w \/
  trace w' = (trace w ++ [ServicesList 20])%list \/
  (trace w' = (trace w ++ [ServicesList 20; ServicesCreate SYNC_SERVICE_NAME])%list /\
   servicesList env (trace w) 20 = Ok []).
Proof.
  exact (resolve_trace env context w).
Qed.

(** ** The dedup step, read backwards *)

Lemma statusIs_true (e : JsError) (n : Z) : statusIs e n = true <-> status e = Some n.
Proof.
  unfold statusIs. destruct (status e) as [s|]; split; intros H; try discriminate H.
  - apply Z.eqb_eq in H. now subst.
  - injection H as ->. apply Z.eqb_refl.
Qed.

(** The run of the dedup step as one table. *)
Lemma markAsProcessedIfNew_run (env : Env) (context : JsObject)
      (dedupeKey : string) (w : World) :
  markAsProcessedIfNew env context dedupeKey w =
  match resolveSyncServiceSid env context w with
  | (Throw e, w1) => (Throw e, w1)
  | (Ok serviceSid, w1) =>
      let w2 := record (DocumentFetch serviceSid dedupeKey) w1 in
      match documentFetch env (trace w1) serviceSid dedupeKey with
      | Ok _ => (Ok false, w2)
      | Throw e =>
          if statusIs e 404 then
            let createdAt := nowISO env (trace w2) in
            let w3 := record (DocumentCreate serviceSid dedupeKey createdAt 86400) w2 in
            match documentCreate env (trace w2) serviceSid dedupeKey createdAt 86400 with
            | Ok _ => (Ok true, w3)
            | Throw e' => if statusIs e' 409 then (Ok false, w3) else (Throw e', w3)
            end
          else (Throw e, w2)
      end
  end.
Proof.
  unfold markAsProcessedIfNew. unfold bind at 1.
  destruct (resolveSyncServiceSid env context w) as [[serviceSid | e] w1];
    [|reflexivity].
  unfold bind, tryCatch, fetchDocument, createDocument, perform. cbv zeta.
  change DEDUPE_TTL_SECONDS with 86400.
  destruct (documentFetch env (trace w1) serviceSid dedupeKey) as [[]|e];
    [reflexivity|].
  destruct (statusIs e 404); cbn [negb]; [|reflexivity].
  unfold ret.
  destruct (documentCreate env _ serviceSid dedupeKey _ 86400) as [[]|e'];
    [reflexivity|].
  destruct (statusIs e' 409); reflexivity.
Qed.

(** X16: what a result of the dedup step tells. "New" is returned only
    when the fetch failed with 404 and the store then accepted the
    creation of the record, these two being the last calls made; "not
    new" is returned only when the fetch found a record, or when the
    fetch failed with 404 and the creation failed with 409. *)
Theorem markAsProcessedIfNew_inversion (env : Env) (context : JsObject)
        (dedupeKey : string) (w w' : World) (isNew : bool) :
  markAsProcessedIfNew env context dedupeKey w = (Ok isNew, w') ->
  exists serviceSid w1,
    resolveSyncServiceSid env context w = (Ok serviceSid, w1) /\
    let w2 := record (DocumentFetch serviceSid dedupeKey) w1 in
    let createdAt := nowISO env (trace w2) in
    let w3 := record (DocumentCreate serviceSid dedupeKey createdAt 86400) w2 in
    let fetched := documentFetch env (trace w1) serviceSid dedupeKey in
    let created := documentCreate env (trace w2) serviceSid dedupeKey createdAt 86400 in
    if isNew then
      (exists e, fetched = Throw e /\ status e = Some 404) /\
      created = Ok tt /\ w' = w3
    else
      (fetched = Ok tt /\ w' = w2) \/
      ((exists e, fetched = Throw e /\ status e = Some 404) /\
       (exists e', created = Throw e' /\ status e' = Some 409) /\ w' = w3).
Proof.
  rewrite markAsProcessedIfNew_run.
  destruct (resolveSyncServiceSid env context w) as [[serviceSid | e] w1];
    [| intros H; discriminate H].
  cbv zeta. intros H. exists serviceSid, w1. split; [reflexivity|].
  destruct (documentFetch env (trace w1) serviceSid dedupeKey) as [[]|e] eqn:F.
  - injection H as <- <-. left. split; reflexivity.
  - destruct (statusIs e 404) eqn:S; [| discriminate H].
    apply statusIs_true in S.
    destruct (documentCreate env _ serviceSid dedupeKey _ 86400) as [[]|e'] eqn:C.
    + injection H as <- <-. split; [exists e; split; [reflexivity | exact S]|].
      split; reflexivity.
    + destruct (statusIs e' 409) eqn:S'; [| discriminate H].
      apply statusIs_true in S'. injection H as <- <-. right.
      split; [exists e; split; [reflexivity | exact S]|].
      split; [exists e'; split; [reflexivity | exact S'] | reflexivity].
Qed.

Lemma markAsProcessedIfNew_inversion_witness :
  exists serviceSid w1,
    resolveSyncServiceSid (listingEnv []) bareContext initialWorld = (Ok serviceSid, w1) /\
    (exists e, documentFetch (listingEnv []) (trace w1) serviceSid "email:18f9f4f2" = Throw e /\
               status e = Some 404).
Proof.
  destruct (markAsProcessedIfNew_inversion (listingEnv []) bareContext "email:18f9f4f2"
              initialWorld
              (mkWorld None [ DocumentFetch "IS0001" "email:18f9f4f2";
                              DocumentCreate "IS0001" "email:18f9f4f2"
                                             "2026-01-01T10:00:00.000Z" 86400 ])
              true eq_refl)
    as (serviceSid & w1 & Hres & Hfetch & _).
  exists serviceSid, w1. split; [exact Hres | exact Hfetch].
Defined.

(** ** The handler as a whole *)

Section HandlerRuns.

Variable sha256Hex : string -> string.
Variable inviteMarker : string.
Variable env : Env.
Variable context : JsObject.
Variable event : JsValue.

Let threshold : Z := getDetectorThreshold (Js.prop context "DETECTOR_THRESHOLD").
Let points : Z := score (scorePayload (parsePayload event)).
Let accountSid : JsValue := Js.prop context "TWILIO_ACCOUNT_SID".
Let authToken : JsValue := Js.prop context "TWILIO_AUTH_TOKEN".
Let dedupeKey : string := buildDedupeKey sha256Hex (parsePayload event).
Let params : MessageParams :=
  mkParams (Js.prop context "TWILIO_WHATSAPP_FROM")
           (Js.prop context "TWILIO_WHATSAPP_TO")
           (buildWhatsAppBody inviteMarker (parsePayload event)).

(** The run of the handler as one table. *)
Lemma handler_run (w : World) :
  handler sha256Hex inviteMarker env context event w =
  match isAuthorizedRequest event (Js.prop context "WEBHOOK_SECRET") w with
  | (Throw e, wa) => caught e wa
  | (Ok false, wa) =>
      (Ok (createJsonResponse 401
             [("ok", JBool false); ("error", JStr "unauthorized")]), wa)
  | (Ok true, wa) =>
      if points <? threshold then
        (Ok (createJsonResponse 200
               [("ok", JBool true); ("action", JStr "ignored"); ("score", JNum points)]),
         wa)
      else if ok (assertSendConfig context) then
        let w1 := record (ClientInit accountSid authToken) wa in
        match twilioInit env (trace wa) accountSid authToken with
        | Throw e => caught e w1
        | Ok _ =>
            match markAsProcessedIfNew env context dedupeKey w1 with
            | (Throw e, w2) => caught e w2
            | (Ok false, w2) =>
                (Ok (createJsonResponse 200
                       [("ok", JBool true); ("action", JStr "deduped")]), w2)
            | (Ok true, w2) =>
                match sendWithRetry env params w2 with
                | (Ok sent, w3) =>
                    (Ok (createJsonResponse 200
                           [("ok", JBool true); ("action", JStr "sent");
                            ("sid", Js.prop sent "sid")]), w3)
                | (Throw e, w3) => caught e w3
                end
            end
        end
      else
        (Ok (createJsonResponse 500
               [("ok", JBool false); ("error", JStr "missing_env")]),
         record (ConsoleError [ "Missing required env vars:";
                                join ", " (missing (assertSendConfig context)) ]) wa)
  end.
Proof.
  unfold handler, tryCatch. unfold bind at 1.
  destruct (isAuthorizedRequest event (Js.prop context "WEBHOOK_SECRET") w)
    as [[[|] | e] wa]; cbn [negb]; try reflexivity.
  fold threshold. fold points.
  destruct (points <? threshold); [reflexivity|].
  destruct (ok (assertSendConfig context)); cbn [negb]; [|reflexivity].
  fold accountSid. fold authToken. fold dedupeKey. fold params.
  unfold bind at 1. unfold twilio, perform. cbv zeta.
  destruct (twilioInit env (trace wa) accountSid authToken) as [[]|e];
    [|reflexivity].
  unfold bind at 1.
  destruct (markAsProcessedIfNew env context dedupeKey _) as [[[|] | e] w2];
    cbn [negb]; try reflexivity.
  unfold bind.
  destruct (sendWithRetry env params w2) as [[sent | e] w3]; reflexivity.
Qed.

End HandlerRuns.

Lemma score_range (payload : JsObject) : 0 <= score (scorePayload payload) <= 15.
Proof.
  rewrite scorePayload_filter. cbn [score].
  pose proof (filter_length_le (includes (scoredText payload)) KEYWORDS) as H.
  change (List.length KEYWORDS) with 15%nat in H. lia.
Qed.

(** X17: whatever the handler answers is one of six answers: 401
    unauthorized, 200 ignored with a score between 0 and 15, 200
    deduped, 200 sent, 500 missing_env or 500 internal_error, each with
    the JSON content type and the no-store cache header. *)
Theorem handler_answers_documented (sha256Hex : string -> string)
        (inviteMarker : string) (env : Env) (context : JsObject) (event : JsValue)
        (w w' : World) (response : Response) :
  handler sha256Hex inviteMarker env context event w = (Ok response, w') ->
  Documented response /\
  respHeaders response =
    [("Content-Type", "application/json"); ("Cache-Control", "no-store")].
Proof.
  assert (Hall : exists r w0,
            handler sha256Hex inviteMarker env context event w = (Ok r, w0) /\
            Documented r /\
            respHeaders r =
              [("Content-Type", "application/json"); ("Cache-Control", "no-store")]).
  { rewrite handler_run. unfold caught.
    destruct (isAuthorizedRequest event _ w) as [[[|] | e] wa].
    - destruct (_ <? _).
      + eexists; eexists; split; [reflexivity | split; [|reflexivity]].
        constructor. apply score_range.
      + destruct (ok (assertSendConfig context)).
        * cbv zeta. destruct (twilioInit env _ _ _) as [[]|e].
          -- destruct (markAsProcessedIfNew env context _ _) as [[[|] | e] w2].
             ++ destruct (sendWithRetry env _ w2) as [[sent | e] w3];
                  eexists; eexists; split; try reflexivity; split;
                    try reflexivity; constructor.
             ++ eexists; eexists; split; [reflexivity | split; [constructor | reflexivity]].
             ++ eexists; eexists; split; [reflexivity | split; [constructor | reflexivity]].
          -- eexists; eexists; split; [reflexivity | split; [constructor | reflexivity]].
        * eexists; eexists; split; [reflexivity | split; [constructor | reflexivity]].
    - eexists; eexists; split; [reflexivity | split; [constructor | reflexivity]].
    - eexists; eexists; split; [reflexivity | split; [constructor | reflexivity]]. }
  destruct Hall as (r & w0 & Hrun & Hdoc & Hhead).
  intros H. rewrite Hrun in H. injection H as <- _. split; assumption.
Qed.

Lemma handler_answers_documented_witness :
  Documented (createJsonResponse 200 [("ok", JBool true); ("action", JStr "deduped")]).
Proof.
  apply (handler_answers_documented plainDigest "Naukri Invite" duplicateEnv
           fullContext inviteEvent initialWorld
           (mkWorld None [ ClientInit (JStr "AC0001") (JStr "token");
                           DocumentFetch "IS0001" "email:18f9f4f2" ])).
  reflexivity.
Defined.

(** X18: a request that is not authorized is answered 401 unauthorized
    and nothing else happens: no client is made and neither the store
    nor the transport is called; the only possible effect is the log
    line that reports a secret that is not configured. *)
Theorem handler_unauthorized (sha256Hex : string -> string) (inviteMarker : string)
        (env : Env) (context : JsObject) (event : JsValue) (w : World) :
  fst (isAuthorizedRequest event (Js.prop context "WEBHOOK_SECRET") w) = Ok false ->
  exists w',
    handler sha256Hex inviteMarker env context event w =
    (Ok (createJsonResponse 401 [("ok", JBool false); ("error", JStr "unauthorized")]),
     w') /\
    cachedSyncServiceSid w' = cachedSyncServiceSid w /\
    (trace w' = trace w \/
     trace w' = (trace w ++ [ConsoleError ["WEBHOOK_SECRET is not configured."]])%list).
Proof.
  intros H. rewrite handler_run. revert H. unfold isAuthorizedRequest.
  destruct (nonEmpty (cleanString (Js.prop context "WEBHOOK_SECRET"))); cbn [negb].
  - unfold ret. cbn [fst]. intros H. injection H as ->.
    exists w. split; [reflexivity | split; [reflexivity | left; reflexivity]].
  - intros _. eexists. split; [reflexivity|].
    split; [reflexivity | right; reflexivity].
Qed.

Lemma handler_unauthorized_witness :
  exists w',
    handler plainDigest "Naukri Invite" duplicateEnv fullContext
            (JObj [ ("headers", JObj [ ("X-Webhook-Secret", JStr "guess") ]);
                    ("subject", JStr "Interview invite from recruiter") ])
            initialWorld =
    (Ok (createJsonResponse 401 [("ok", JBool false); ("error", JStr "unauthorized")]),
     w') /\
    cachedSyncServiceSid w' = cachedSyncServiceSid initialWorld /\
    (trace w' = trace initialWorld \/
     trace w' = (trace initialWorld ++
                 [ConsoleError ["WEBHOOK_SECRET is not configured."]])%list).
Proof.
  apply handler_unauthorized. reflexivity.
Defined.

(** X19: the delivery path. For an authorized event at or above the
    threshold with a complete configuration: a client constructor that
    throws is answered 500 internal_error before the store is touched;
    once the dedup step reports a new event, a send that succeeds is
    answered 200 sent with the sid of the transport's message, and a
    send that fails is answered 500 internal_error. *)
Theorem handler_delivery (sha256Hex : string -> string) (inviteMarker : string)
        (env : Env) (context : JsObject) (event : JsValue) (w : World) :
  fst (isAuthorizedRequest event (Js.prop context "WEBHOOK_SECRET") w) = Ok true ->
  getDetectorThreshold (Js.prop context "DETECTOR_THRESHOLD") <=
    score (scorePayload (parsePayload event)) ->
  ok (assertSendConfig context) = true ->
  let accountSid := Js.prop context "TWILIO_ACCOUNT_SID" in
  let authToken := Js.prop context "TWILIO_AUTH_TOKEN" in
  let w1 := record (ClientInit accountSid authToken) w in
  let dedupeKey := buildDedupeKey sha256Hex (parsePayload event) in
  let params := mkParams (Js.prop context "TWILIO_WHATSAPP_FROM")
                         (Js.prop context "TWILIO_WHATSAPP_TO")
                         (buildWhatsAppBody inviteMarker (parsePayload event)) in
  (forall e, twilioInit env (trace w) accountSid authToken = Throw e ->
     handler sha256Hex inviteMarker env context event w = caught e w1) /\
  (twilioInit env (trace w) accountSid authToken = Ok tt ->
   forall w2, markAsProcessedIfNew env context dedupeKey w1 = (Ok true, w2) ->
     (forall sent w3, sendWithRetry env params w2 = (Ok sent, w3) ->
        handler sha256Hex inviteMarker env context event w =
        (Ok (createJsonResponse 200
               [("ok", JBool true); ("action", JStr "sent");
                ("sid", Js.prop sent "sid")]), w3)) /\
     (forall e w3, sendWithRetry env params w2 = (Throw e, w3) ->
        handler sha256Hex inviteMarker env context event w = caught e w3)).
Proof.
  intros Hauth Hscore Hcfg accountSid authToken w1 dedupeKey params.
  apply isAuthorizedRequest_true_world in Hauth. apply Z.ltb_ge in Hscore.
  rewrite handler_run, Hauth, Hscore, Hcfg. cbv zeta.
  fold accountSid. fold authToken. fold w1. fold dedupeKey. fold params.
  split.
  - intros e H. rewrite H. reflexivity.
  - intros H w2 Hm. rewrite H, Hm. split.
    + intros sent w3 Hs. rewrite Hs. reflexivity.
    + intros e w3 Hs. rewrite Hs. reflexivity.
Qed.

Lemma handler_delivery_witness :
  handler plainDigest "Naukri Invite"
          (scriptedEnv (Throw (httpError 404)) (Ok tt) failsOnce)
          fullContext inviteEvent initialWorld =
  (Ok (createJsonResponse 200
         [("ok", JBool true); ("action", JStr "sent"); ("sid", JStr "SM0001")]),
   snd (sendWithRetry (scriptedEnv (Throw (httpError 404)) (Ok tt) failsOnce)
          (mkParams (Js.prop fullContext "TWILIO_WHATSAPP_FROM")
                    (Js.prop fullContext "TWILIO_WHATSAPP_TO")
                    (buildWhatsAppBody "Naukri Invite" (parsePayload inviteEvent)))
          (mkWorld None
             [ ClientInit (JStr "AC0001") (JStr "token");
               DocumentFetch "IS0001" "email:18f9f4f2";
               DocumentCreate "IS0001" "email:18f9f4f2"
                              "2026-01-01T10:00:00.000Z" 86400 ]))).
Proof.
  refine (proj1 (proj2 (handler_delivery plainDigest "Naukri Invite"
            (scriptedEnv (Throw (httpError 404)) (Ok tt) failsOnce)
            fullContext inviteEvent initialWorld eq_refl _ eq_refl) eq_refl
            _ eq_refl) [("sid", JStr "SM0001")] _ eq_refl).
  vm_compute. discriminate.
Defined.

(** ** No message without a record *)

Lemma markAs_new_world (env : Env) (context : JsObject) (dedupeKey : string)
      (w w' : World) :
  markAsProcessedIfNew env context dedupeKey w = (Ok true, w') ->
  exists serviceSid w1,
    resolveSyncServiceSid env context w = (Ok serviceSid, w1) /\
    w' = record (DocumentCreate serviceSid dedupeKey
                   (nowISO env (trace (record (DocumentFetch serviceSid dedupeKey) w1)))
                   86400)
                (record (DocumentFetch serviceSid dedupeKey) w1).
Proof.
  rewrite markAsProcessedIfNew_run.
  destruct (resolveSyncServiceSid env context w) as [[serviceSid | e] w1];
    [| intros H; discriminate H].
  cbv zeta. intros H. exists serviceSid, w1. split; [reflexivity|].
  destruct (documentFetch env (trace w1) serviceSid dedupeKey) as [[]|e];
    [discriminate H|].
  destruct (statusIs e 404); [| discriminate H].
  destruct (documentCreate env _ serviceSid dedupeKey _ 86400) as [[]|e'].
  - injection H as <-. reflexivity.
  - destruct (statusIs e' 409); discriminate H.
Qed.

Lemma resolve_added (env : Env) (context : JsObject) (w : World) :
  exists added,
    trace (snd (resolveSyncServiceSid env context w)) = (trace w ++ added)%list /\
    sends added = 0%nat.
Proof.
  destruct (resolve_trace env context w) as [H | [H | [H _]]].
  - exists []. rewrite app_nil_r. split; [exact H | reflexivity].
  - eexists. split; [exact H | reflexivity].
  - eexists. split; [exact H | reflexivity].
Qed.

Lemma send_added (env : Env) (params : MessageParams) (w : World) :
  exists rest,
    trace (snd (sendWithRetry env params w)) =
    (trace w ++ MessagesCreate params :: rest)%list.
Proof.
  unfold sendWithRetry, tryCatch, createMessage, perform.
  destruct (messagesCreate env (trace w) params) as [sent | e].
  - exists []. reflexivity.
  - destruct (isTransientError e); cbn [negb].
    + exists [Sleep SEND_RETRY_DELAY_MS; MessagesCreate params].
      unfold bind, sleep, perform. cbn [snd trace record].
      rewrite <- !app_assoc. reflexivity.
    + exists []. reflexivity.
Qed.

Lemma sends_app (a b : list Effect) : sends (a ++ b) = (sends a + sends b)%nat.
Proof.
  unfold sends. now rewrite filter_app, length_app.
Qed.

(** X20: the transport is invoked only for an authorized event at or
    above the threshold under a complete configuration, and only after
    the store accepted the record of the event's key: in every run that
    sends, the first transport call comes directly after the fetch and
    the creation of that record, with a TTL of 86400 seconds. *)
Theorem handler_sends_only_after_create (sha256Hex : string -> string)
        (inviteMarker : string) (env : Env) (context : JsObject) (event : JsValue)
        (w w' : World) (result : Outcome Response) :
  handler sha256Hex inviteMarker env context event w = (result, w') ->
  (sends (trace w) < sends (trace w'))%nat ->
  fst (isAuthorizedRequest event (Js.prop context "WEBHOOK_SECRET") w) = Ok true /\
  getDetectorThreshold (Js.prop context "DETECTOR_THRESHOLD") <=
    score (scorePayload (parsePayload event)) /\
  ok (assertSendConfig context) = true /\
  exists pre serviceSid createdAt post,
    sends pre = 0%nat /\
    trace w' =
    (trace w ++ pre ++
     [ DocumentFetch serviceSid (buildDedupeKey sha256Hex (parsePayload event));
       DocumentCreate serviceSid (buildDedupeKey sha256Hex (parsePayload event))
                      createdAt 86400;
       MessagesCreate
         (mkParams (Js.prop context "TWILIO_WHATSAPP_FROM")
                   (Js.prop context "TWILIO_WHATSAPP_TO")
                   (buildWhatsAppBody inviteMarker (parsePayload event))) ] ++
     post)%list.
Proof.
  intros Hrun Hsends. rewrite handler_run in Hrun. unfold caught in Hrun.
  pose proof (sendsAtMost_isAuthorizedRequest event
                (Js.prop context "WEBHOOK_SECRET") w) as Hauth0.
  destruct (isAuthorizedRequest event (Js.prop context "WEBHOOK_SECRET") w)
    as [[[|] | e] wa] eqn:Ha; cbn [snd] in Hauth0.
  2:{ injection Hrun as _ <-. lia. }
  2:{ injection Hrun as _ <-. rewrite sends_record in Hsends. cbn [isSend] in Hsends. lia. }
  assert (Hw : wa = w).
  { pose proof (isAuthorizedRequest_true_world event
                  (Js.prop context "WEBHOOK_SECRET") w) as Hx.
    rewrite Ha in Hx. specialize (Hx eq_refl). now injection Hx. }
  subst wa. clear Hauth0.
  destruct (Z.ltb_spec (score (scorePayload (parsePayload event)))
                       (getDetectorThreshold (Js.prop context "DETECTOR_THRESHOLD")))
    as [Hlt | Hge].
  { injection Hrun as _ <-. lia. }
  destruct (ok (assertSendConfig context)) eqn:Hcfg.
  2:{ injection Hrun as _ <-. rewrite sends_record in Hsends. cbn [isSend] in Hsends. lia. }
  cbv zeta in Hrun.
  set (w1 := record (ClientInit (Js.prop context "TWILIO_ACCOUNT_SID")
                                (Js.prop context "TWILIO_AUTH_TOKEN")) w) in *.
  assert (Hw1 : sends (trace w1) = sends (trace w)).
  { unfold w1. rewrite sends_record. cbn [isSend]. lia. }
  destruct (twilioInit env (trace w) _ _) as [[]|e].
  2:{ injection Hrun as _ <-. rewrite sends_record in Hsends. cbn [isSend] in Hsends. lia. }
  pose proof (sendsAtMost_markAsProcessedIfNew env context
                (buildDedupeKey sha256Hex (parsePayload event)) w1) as Hm0.
  destruct (markAsProcessedIfNew env context _ w1) as [[[|] | e] w2] eqn:Hm;
    cbn [snd] in Hm0.
  2:{ injection Hrun as _ <-. lia. }
  2:{ injection Hrun as _ <-. rewrite sends_record in Hsends. cbn [isSend] in Hsends. lia. }
  split; [reflexivity | split; [exact Hge | split; [reflexivity|]]].
  destruct (markAs_new_world _ _ _ _ _ Hm) as (serviceSid & wr & Hres & Hw2).
  destruct (resolve_added env context w1) as (added & Hadded & Hzero).
  rewrite Hres in Hadded. cbn [snd] in Hadded.
  set (params := mkParams (Js.prop context "TWILIO_WHATSAPP_FROM")
                          (Js.prop context "TWILIO_WHATSAPP_TO")
                          (buildWhatsAppBody inviteMarker (parsePayload event))) in *.
  destruct (send_added env params w2) as (rest & Hrest).
  assert (Hw3 : forall w3, trace w3 = (trace w2 ++ MessagesCreate params :: rest)%list ->
                forall tail,
                  (trace w3 ++ tail)%list =
                  (trace w ++
                   (ClientInit (Js.prop context "TWILIO_ACCOUNT_SID")
                               (Js.prop context "TWILIO_AUTH_TOKEN") :: added) ++
                   [ DocumentFetch serviceSid (buildDedupeKey sha256Hex (parsePayload event));
                     DocumentCreate serviceSid
                       (buildDedupeKey sha256Hex (parsePayload event))
                       (nowISO env
                          (trace (record (DocumentFetch serviceSid
                                            (buildDedupeKey sha256Hex (parsePayload event)))
                                         wr)))
                       86400;
                     MessagesCreate params ] ++ (rest ++ tail))%list).
  { intros w3 E tail. rewrite E, Hw2. cbn [trace record]. rewrite Hadded.
    unfold w1. cbn [trace record]. rewrite <- !app_assoc. reflexivity. }
  exists (ClientInit (Js.prop context "TWILIO_ACCOUNT_SID")
                     (Js.prop context "TWILIO_AUTH_TOKEN") :: added),
         serviceSid,
         (nowISO env
            (trace (record (DocumentFetch serviceSid
                              (buildDedupeKey sha256Hex (parsePayload event)))
                           wr))).
  destruct (sendWithRetry env params w2) as [[sent | e] w3]; cbn [snd] in Hrest.
  - injection Hrun as _ <-. exists (rest ++ [])%list.
    split; [exact Hzero|]. rewrite <- (app_nil_r (trace w3)). now apply Hw3.
  - injection Hrun as _ <-.
    exists (rest ++ [ConsoleError ["notify handler error:"; message e; stack e]])%list.
    split; [exact Hzero|]. cbn [trace record]. now apply Hw3.
Qed.

Lemma handler_sends_only_after_create_witness :
  exists pre serviceSid createdAt post,
    sends pre = 0%nat /\
    trace (snd (handler plainDigest "Naukri Invite"
                  (scriptedEnv (Throw (httpError 404)) (Ok tt) failsOnce)
                  fullContext inviteEvent initialWorld)) =
    (trace initialWorld ++ pre ++
     [ DocumentFetch serviceSid (buildDedupeKey plainDigest (parsePayload inviteEvent));
       DocumentCreate serviceSid (buildDedupeKey plainDigest (parsePayload inviteEvent))
                      createdAt 86400;
       MessagesCreate
         (mkParams (Js.prop fullContext "TWILIO_WHATSAPP_FROM")
                   (Js.prop fullContext "TWILIO_WHATSAPP_TO")
                   (buildWhatsAppBody "Naukri Invite" (parsePayload inviteEvent))) ] ++
     post)%list.
Proof.
  destruct (handler_sends_only_after_create plainDigest "Naukri Invite"
              (scriptedEnv (Throw (httpError 404)) (Ok tt) failsOnce)
              fullContext inviteEvent initialWorld
              (snd (handler plainDigest "Naukri Invite"
                      (scriptedEnv (Throw (httpError 404)) (Ok tt) failsOnce)
                      fullContext inviteEvent initialWorld))
              (fst (handler plainDigest "Naukri Invite"
                      (scriptedEnv (Throw (httpError 404)) (Ok tt) failsOnce)
                      fullContext inviteEvent initialWorld)))
    as (_ & _ & _ & H).
  - destruct (handler _ _ _ _ _ _); reflexivity.
  - vm_compute. lia.
  - exact H.
Defined.

(** ** The outbound message *)

Lemma labelled_string (label s fallback : string) :
  labelled label (JStr s) fallback = label ++ orElse s fallback.
Proof.
  destruct s; reflexivity.
Qed.

Lemma orElse_nonEmpty (s fallback : string) :
  fallback <> "" -> orElse s fallback <> "".
Proof.
  intros H. unfold orElse. destruct s; [exact H | discriminate].
Qed.

(** X21: the message built for a normalized event has the marker line
    and four labelled lines, joined by line feeds. Each label is
    followed by the event's cleaned subject, from and date, or by its
    placeholder when that is empty; the excerpt is the first 300 code
    units of the cleaned snippet, or of the cleaned body when the
    snippet is empty. No label is followed by an empty text and the
    excerpt never exceeds 300 code units. *)
Theorem buildWhatsAppBody_normalized (inviteMarker : string) (event : JsValue) :
  let payload := selectPayload event in
  let subject := orElse (cleanString (Js.get payload "subject")) "(no subject)" in
  let sender := orElse (cleanString (Js.get payload "from")) "(unknown sender)" in
  let date := orElse (cleanString (Js.get payload "date")) "(unknown date)" in
  let excerpt :=
    orElse (sliceTo 300 (orElse (cleanString (Js.get payload "snippet"))
                                (cleanString (Js.get payload "body"))))
           "(no excerpt)" in
  buildWhatsAppBody inviteMarker (parsePayload event) =
    inviteMarker ++ lineFeed ++ "Subject: " ++ subject ++ lineFeed ++
    "From: " ++ sender ++ lineFeed ++ "Date: " ++ date ++ lineFeed ++
    "Excerpt: " ++ excerpt /\
  subject <> "" /\ sender <> "" /\ date <> "" /\ excerpt <> "" /\
  (String.length excerpt <= 300)%nat.
Proof.
  intros payload subject sender date excerpt.
  split; [| repeat split; try (apply orElse_nonEmpty; discriminate)].
  - unfold buildWhatsAppBody.
    change (Js.prop (parsePayload event) "subject")
      with (JStr (cleanString (Js.get payload "subject"))).
    change (Js.prop (parsePayload event) "from")
      with (JStr (cleanString (Js.get payload "from"))).
    change (Js.prop (parsePayload event) "date")
      with (JStr (cleanString (Js.get payload "date"))).
    change (Js.prop (parsePayload event) "snippet")
      with (JStr (cleanString (Js.get payload "snippet"))).
    change (Js.prop (parsePayload event) "body")
      with (JStr (cleanString (Js.get payload "body"))).
    rewrite !labelled_string, clip_sliceTo.
    assert (E : cleanString (Js.or (JStr (cleanString (Js.get payload "snippet")))
                                   (JStr (cleanString (Js.get payload "body")))) =
                orElse (cleanString (Js.get payload "snippet"))
                       (cleanString (Js.get payload "body"))).
    { unfold Js.or, orElse. cbn [Js.truthy].
      destruct (nonEmpty (cleanString (Js.get payload "snippet")));
        apply cleanString_idempotent. }
    rewrite E. reflexivity.
  - unfold excerpt, orElse.
    destruct (nonEmpty (sliceTo 300 _)).
    + rewrite sliceTo_length. lia.
    + simpl. lia.
Qed.

(** ** Header lookup *)

Lemma findHeader_noOuterSpace (wanted : string) (es : list (string * JsValue)) :
  noOuterSpace (findHeader wanted es).
Proof.
  induction es as [|[k v] es IH]; simpl.
  - split; discriminate.
  - destruct (negb _); [exact IH|]. destruct v; apply cleanString_noOuterSpace.
Qed.

Lemma findHeader_same_case (wanted : string) (es es' : list (string * JsValue)) :
  Forall2 (fun a b => toLowerCase (fst a) = toLowerCase (fst b) /\ snd a = snd b)
          es es' ->
  findHeader wanted es = findHeader wanted es'.
Proof.
  induction 1 as [|[k v] [k' v'] es es' [Hk Hv] _ IH]; [reflexivity|].
  cbn [fst snd] in Hk, Hv. subst v'. simpl. rewrite Hk, IH. reflexivity.
Qed.

(** X22: the header lookup sees neither the letter case of the
    requested name nor that of the stored names: renaming headers
    without changing their lower-case form, or asking with another
    letter case, gives the same value. The value has no white space at
    either end, and headers that are not an object give the empty
    string. *)
Theorem getHeader_case_insensitive :
  (forall es es' name name',
     Forall2 (fun a b => toLowerCase (fst a) = toLowerCase (fst b) /\ snd a = snd b)
             es es' ->
     toLowerCase name = toLowerCase name' ->
     getHeader (JObj es) name = getHeader (JObj es') name') /\
  (forall headers name, noOuterSpace (getHeader headers name)) /\
  (forall headers name,
     Js.truthy headers && Js.isObjectType headers = false ->
     getHeader headers name = "").
Proof.
  split; [| split].
  - intros es es' name name' Hes Hname.
    rewrite !getHeader_entries, Hname. cbn [Js.entries].
    now apply findHeader_same_case.
  - intros headers name. rewrite getHeader_entries. apply findHeader_noOuterSpace.
  - intros headers name H. unfold getHeader.
    apply andb_false_iff in H. destruct H as [H | H]; rewrite H; cbn [negb orb].
    + reflexivity.
    + now rewrite orb_true_r.
Qed.

Lemma getHeader_case_insensitive_witness :
  getHeader (JObj [ ("HOST", JStr "a.twil.io"); ("X-Webhook-Secret", JStr " s3cret ") ])
            "x-webhook-secret" =
  getHeader (JObj [ ("host", JStr "a.twil.io"); ("x-WEBHOOK-secret", JStr " s3cret ") ])
            "X-WEBHOOK-SECRET" /\
  getHeader (JStr "x-webhook-secret: s3cret") "x-webhook-secret" = "".
Proof.
  split.
  - apply (proj1 getHeader_case_insensitive); [| reflexivity].
    repeat constructor.
  - apply (proj2 (proj2 getHeader_case_insensitive)). reflexivity.
Defined.

(** ** The key of a normalized event *)

(** X23: the key the handler uses, built from the normalized event. With
    an identifier that is not blank it is "email:" followed by the
    cleaned identifier, so identifiers that differ only in surrounding
    white space share a key. Otherwise it is "hash:" followed by the
    digest of the lower-cased cleaned from, subject and date and of the
    lower-cased first 200 code units of the cleaned excerpt, trimmed
    once more after the cut, joined by "|". *)
Theorem buildDedupeKey_normalized (sha256Hex : string -> string) (event : JsValue) :
  let payload := selectPayload event in
  let id := cleanString (Js.or (Js.or (Js.get payload "email_id")
                                      (Js.get payload "emailId"))
                               (Js.get payload "message_id")) in
  let excerpt := orElse (cleanString (Js.get payload "snippet"))
                        (cleanString (Js.get payload "body")) in
  (id <> "" ->
   buildDedupeKey sha256Hex (parsePayload event) = "email:" ++ id) /\
  (id = "" ->
   buildDedupeKey sha256Hex (parsePayload event) =
   "hash:" ++ sha256Hex
     (toLowerCase (cleanString (Js.get payload "from")) ++ "|" ++
      toLowerCase (cleanString (Js.get payload "subject")) ++ "|" ++
      toLowerCase (cleanString (Js.get payload "date")) ++ "|" ++
      toLowerCase (trim (sliceTo 200 excerpt)))).
Proof.
  intros payload id excerpt.
  unfold buildDedupeKey.
  change (Js.prop (parsePayload event) "email_id") with (JStr id).
  change (Js.prop (parsePayload event) "from")
    with (JStr (cleanString (Js.get payload "from"))).
  change (Js.prop (parsePayload event) "subject")
    with (JStr (cleanString (Js.get payload "subject"))).
  change (Js.prop (parsePayload event) "date")
    with (JStr (cleanString (Js.get payload "date"))).
  change (Js.prop (parsePayload event) "snippet")
    with (JStr (cleanString (Js.get payload "snippet"))).
  change (Js.prop (parsePayload event) "body")
    with (JStr (cleanString (Js.get payload "body"))).
  split; intros Hid.
  - cbn [Js.truthy Js.toString]. destruct id; [contradiction | reflexivity].
  - rewrite Hid. cbn [Js.truthy nonEmpty map]. rewrite !cleanString_idempotent.
    rewrite clip_sliceTo.
    assert (E : cleanString (Js.or (JStr (cleanString (Js.get payload "snippet")))
                                   (JStr (cleanString (Js.get payload "body")))) =
                excerpt).
    { unfold Js.or, excerpt, orElse. cbn [Js.truthy].
      destruct (nonEmpty (cleanString (Js.get payload "snippet")));
        apply cleanString_idempotent. }
    rewrite E. reflexivity.
Qed.

Lemma buildDedupeKey_normalized_witness :
  buildDedupeKey plainDigest
    (parsePayload (JObj [ ("message_id", JStr "  18f9f4f2 ") ])) = "email:18f9f4f2" /\
  buildDedupeKey plainDigest
    (parsePayload (JObj [ ("from", JStr " HR@Company.com "); ("body", JStr "Zoom Call") ])) =
  "hash:hr@company.com|||zoom call".
Proof.
  split.
  - apply (proj1 (buildDedupeKey_normalized plainDigest
                    (JObj [ ("message_id", JStr "  18f9f4f2 ") ]))).
    vm_compute. discriminate.
  - apply (proj2 (buildDedupeKey_normalized plainDigest
                    (JObj [ ("from", JStr " HR@Company.com "); ("body", JStr "Zoom Call") ]))).
    reflexivity.
Defined.

(** ** What the threshold parser accepts *)

Lemma digitsFrom_numeral_then (d : Decimal.uint) (acc : Z) (suffix : string) :
  (forall c, firstChar suffix = Some c -> Num.isDigit c = false) ->
  Num.digitsFrom acc true (NilEmpty.string_of_uint d ++ suffix) =
  Some (uintValue acc d).
Proof.
  intros Hs. revert acc. induction d; intros acc; simpl;
    try (change (Num.digitValue _) with 0 || change (Num.digitValue _) with 1 ||
         change (Num.digitValue _) with 2 || change (Num.digitValue _) with 3 ||
         change (Num.digitValue _) with 4 || change (Num.digitValue _) with 5 ||
         change (Num.digitValue _) with 6 || change (Num.digitValue _) with 7 ||
         change (Num.digitValue _) with 8 || change (Num.digitValue _) with 9;
         apply IHd).
  destruct suffix as [|c r]; [reflexivity|].
  simpl. now rewrite (Hs c eq_refl).
Qed.

Lemma parseInt10_numeral_then (d : Decimal.uint) (suffix : string) :
  d <> Decimal.Nil ->
  (forall c, firstChar suffix = Some c -> Num.isDigit c = false) ->
  Num.parseInt10 (JStr (NilEmpty.string_of_uint d ++ suffix)) =
  Num.roundToDouble (uintValue 0 d).
Proof.
  intros Hnil Hs. unfold Num.parseInt10.
  destruct d; try congruence;
    cbn [Js.toString NilEmpty.string_of_uint trimStart uintValue append];
    simpl; rewrite (digitsFrom_numeral_then _ _ _ Hs); reflexivity.
Qed.

Lemma digitsFrom_nonneg (s : string) (acc : Z) (seen : bool) (n : Z) :
  0 <= acc -> Num.digitsFrom acc seen s = Some n -> 0 <= n.
Proof.
  revert acc seen. induction s as [|c s IH]; intros acc seen Hacc;
    cbn [Num.digitsFrom].
  - destruct seen; intros H; [injection H as <-; exact Hacc | discriminate H].
  - destruct (Num.isDigit c) eqn:D.
    + apply IH. unfold Num.isDigit in D. apply andb_true_iff in D.
      destruct D as [D _]. apply N.leb_le in D. unfold Num.digitValue. lia.
    + destruct seen; intros H; [injection H as <-; exact Hacc | discriminate H].
Qed.

Lemma roundToDouble_nonneg (n : Z) :
  0 <= n ->
  match Num.roundToDouble n with
  | NumFin v => 0 <= v
  | NumInf negative => negative = false
  | NumNaN => False
  end.
Proof.
  intros Hn. unfold Num.roundToDouble.
  destruct (Z.ltb_spec n (2 ^ 53)) as [_ | H53]; [exact Hn|]. cbv zeta.
  destruct (2 ^ 1024 <=? _); [reflexivity|].
  assert (He : 0 <= Z.log2 n - 52).
  { pose proof (Z.log2_le_mono _ _ H53) as Hl.
    change (Z.log2 (2 ^ 53)) with 53 in Hl. lia. }
  apply Z.mul_nonneg_nonneg.
  - assert (Hq : 0 <= n / 2 ^ (Z.log2 n - 52))
      by (apply Z.div_pos; [exact Hn | apply Z.pow_pos_nonneg; lia]).
    destruct (_ || _); lia.
  - apply Z.pow_nonneg. lia.
Qed.

Lemma trimStart_app_space (ws s : string) :
  allWhiteSpace ws = true -> trimStart (ws ++ s) = trimStart s.
Proof.
  induction ws as [|c ws IH]; simpl; [reflexivity|].
  destruct (isWhiteSpace c); simpl; [exact IH | discriminate].
Qed.

(** X24: what the threshold parser accepts. Leading white space is
    skipped; the decimal numeral of a positive integer below 2^53 gives
    that integer even when other text follows it; and any text that
    starts with a minus sign gives the default 3. *)
Theorem getDetectorThreshold_leading_integer :
  (forall ws s, allWhiteSpace ws = true ->
     getDetectorThreshold (JStr (ws ++ s)) = getDetectorThreshold (JStr s)) /\
  (forall n suffix, 0 < n < 2 ^ 53 ->
     (forall c, firstChar suffix = Some c -> Num.isDigit c = false) ->
     getDetectorThreshold (JStr (decimal n ++ suffix)) = n) /\
  (forall s, getDetectorThreshold (JStr ("-" ++ s)) = 3).
Proof.
  split; [| split].
  - intros ws s H. unfold getDetectorThreshold, Num.parseInt10.
    cbn [Js.toString]. now rewrite trimStart_app_space.
  - intros n suffix [Hpos Hlt] Hs.
    destruct n as [|p|p]; try lia.
    unfold decimal. cbn [Z.to_int NilZero.string_of_int].
    pose proof (DecimalPos.Unsigned.to_uint_nonnil p) as Hnil.
    pose proof (uintValue_of_uint (Pos.to_uint p)) as Hu.
    rewrite DecimalPos.Unsigned.of_to in Hu. cbn [Z.of_N] in Hu.
    unfold getDetectorThreshold, NilZero.string_of_uint.
    destruct (Pos.to_uint p) eqn:E; try congruence;
      rewrite <- E in *; rewrite (parseInt10_numeral_then _ _ Hnil Hs);
      rewrite <- Hu, (roundToDouble_exact _ Hlt);
      destruct (Z.leb_spec (Z.pos p) 0); try reflexivity; lia.
  - intros s. unfold getDetectorThreshold, Num.parseInt10.
    cbn [Js.toString append trimStart]. change (isWhiteSpace "-") with false.
    cbv iota.
    destruct (Num.digitsFrom 0 false s) as [n|] eqn:D; [|reflexivity].
    pose proof (digitsFrom_nonneg s 0 false n (Z.le_refl 0) D) as Hn.
    pose proof (roundToDouble_nonneg n Hn) as Hr.
    destruct (Num.roundToDouble n) as [| negative | v]; cbn [Num.negate];
      try reflexivity.
    destruct (Z.leb_spec (- v) 0); [reflexivity | lia].
Qed.

Lemma getDetectorThreshold_leading_integer_witness :
  getDetectorThreshold (JStr ("  " ++ "4")) = getDetectorThreshold (JStr "4") /\
  getDetectorThreshold (JStr (decimal 5 ++ ".9 points")) = 5.
Proof.
  split.
  - apply (proj1 getDetectorThreshold_leading_integer). reflexivity.
  - apply (proj1 (proj2 getDetectorThreshold_leading_integer)).
    + split; [lia | reflexivity].
    + intros c H. injection H as <-. reflexivity.
Defined.

(** ** Letter case and the cut at 200 code units, beyond Latin-1 *)

Lemma units_isWhiteSpace (c : ascii) :
  Wide.isWhiteSpace (N_of_ascii c) = isWhiteSpace c.
Proof.
  destruct c as [[] [] [] [] [] [] [] []]; vm_compute; reflexivity.
Qed.

Lemma units_lowerChar (c : ascii) :
  Wide.lowerUnit (N_of_ascii c) = [N_of_ascii (lowerChar c)].
Proof.
  destruct c as [[] [] [] [] [] [] [] []]; vm_compute; reflexivity.
Qed.

(** On Latin-1 strings the wide lower-casing, trimming and slicing are
    the ones used for the webhook. *)
Lemma units_toLowerCase (s : string) :
  Wide.toLowerCase (Wide.units s) = Wide.units (toLowerCase s).
Proof.
  induction s as [|c s IH]; [reflexivity|].
  cbn [Wide.units toLowerCase]. unfold Wide.toLowerCase in *. cbn [flat_map].
  rewrite units_lowerChar, IH. reflexivity.
Qed.

Lemma units_trimStart (s : string) :
  Wide.trimStart (Wide.units s) = Wide.units (trimStart s).
Proof.
  induction s as [|c s IH]; [reflexivity|].
  cbn [Wide.units Wide.trimStart trimStart]. rewrite units_isWhiteSpace.
  destruct (isWhiteSpace c); [exact IH | reflexivity].
Qed.

Lemma units_trimEnd (s : string) :
  Wide.trimEnd (Wide.units s) = Wide.units (trimEnd s).
Proof.
  induction s as [|c s IH]; [reflexivity|].
  cbn [Wide.units Wide.trimEnd trimEnd]. rewrite IH, units_isWhiteSpace.
  destruct (trimEnd s); cbn [Wide.units].
  - destruct (isWhiteSpace c); reflexivity.
  - reflexivity.
Qed.

Lemma units_trim (s : string) :
  Wide.trim (Wide.units s) = Wide.units (trim s).
Proof.
  unfold Wide.trim, trim. now rewrite units_trimStart, units_trimEnd.
Qed.

Lemma units_sliceTo (n : nat) (s : string) :
  firstn n (Wide.units s) = Wide.units (sliceTo n s).
Proof.
  revert s. induction n as [|n IH]; intros [|c s]; try reflexivity.
  cbn [Wide.units firstn sliceTo]. now rewrite IH.
Qed.

